(** * freefall.base: the request runner and the batch driver

    A shallow embedding of [src/freefall/base.py].  The module defines the
    exception classes of the downloader, and the abstract class
    [BaseDownloader] whose two concrete methods are [_process_request]
    (admission, execution, resolution of one request) and [download]
    (the loop that runs every request and decides what to log and what
    to let through).

    Python side effects are modelled by a small state-and-error monad
    over an abstract world (the status store and the clock), that also
    records the calls made to the abstract methods and to the logger.

    Scope of the model: exception classes form a tree (single
    inheritance); the session and store methods of a downloader return
    (they do not raise), while the work may raise anything; timestamps are
    counted in microseconds without the year range of [datetime]. *)

From Stdlib Require Import ZArith List Bool Lia.
From stdpp Require Import base gmap strings list fin_maps.

Local Open Scope Z_scope.

(** ** Timestamps *)

(** A [datetime.datetime]: the wall-clock fields, counted in microseconds
    since the epoch, and [tzinfo], which is [None] for a naive timestamp and
    otherwise gives the UTC offset in microseconds. *)
Record datetime := mkDatetime { wall_us : Z; tzinfo : option Z }.

Global Instance datetime_eq_dec : EqDecision datetime.
Proof. solve_decision. Defined.

(** [d.replace(microsecond=0)] *)
Definition replace_microsecond0 (d : datetime) : datetime :=
  {| wall_us := wall_us d - wall_us d mod 1000000; tzinfo := tzinfo d |}.

(** [d + timedelta(seconds=n)] *)
Definition add_seconds (d : datetime) (n : Z) : datetime :=
  {| wall_us := wall_us d + n * 1000000; tzinfo := tzinfo d |}.

(** [a > b] on timestamps.  Two aware timestamps are compared after
    subtracting their offsets, two naive ones by their fields; comparing a
    naive with an aware one is a [TypeError] ([None] here). *)
Definition datetime_gt (a b : datetime) : option bool :=
  match tzinfo a, tzinfo b with
  | Some oa, Some ob => Some (wall_us b - ob <? wall_us a - oa)
  | None, None => Some (wall_us b <? wall_us a)
  | _, _ => None
  end.

(** The instant, in microseconds of UTC, up to which a deadline counts as
    reached when the clock shows [now_us]: the clock cut down to whole
    seconds, plus one second. *)
Definition grace_boundary_us (now_us : Z) : Z :=
  now_us / 1000000 * 1000000 + 1000000.

(** ** Values held by a status dict *)

Inductive value :=
| VNone
| VBool (b : bool)
| VInt (z : Z)
| VStr (s : string)
| VDatetime (d : datetime).

Global Instance value_eq_dec : EqDecision value.
Proof. solve_decision. Defined.

(** Python truthiness.  A datetime is always true. *)
Definition truthy (v : value) : bool :=
  match v with
  | VNone => false
  | VBool b => b
  | VInt z => negb (z =? 0)
  | VStr s => negb (String.eqb s "")
  | VDatetime _ => true
  end.

(** A status record is a dict with string keys. *)
Abbreviation status := (gmap string value).

(** [status.get(k)]: [None] when the key is absent. *)
Definition status_get (st : status) (k : string) : value :=
  default VNone (st !! k).

(** [status.get(k, d)] *)
Definition status_get_default (st : status) (k : string) (d : value) : value :=
  default d (st !! k).

(** ** Exception classes *)

(** The classes of the module, the builtin ones the code can raise or
    names, and classes derived from any of them by the user of the
    library. *)
Inductive pyclass :=
| BaseException
| Exception
| KeyboardInterrupt
| ValueError
| TypeError
| KeyError
| AttributeError
| AlreadyProcessingError
| AlreadyFinishedError
| ResourceError
| TemporaryResourceError
| PartiallyCompleted
| UserClass (name : string) (base : pyclass).

Global Instance pyclass_eq_dec : EqDecision pyclass.
Proof. solve_decision. Defined.

(** The method resolution order of a class (without [object]): the class
    itself followed by its ancestors. *)
Fixpoint mro (c : pyclass) : list pyclass :=
  match c with
  | BaseException => [BaseException]
  | Exception => [Exception; BaseException]
  | KeyboardInterrupt => [KeyboardInterrupt; BaseException]
  | ValueError => [ValueError; Exception; BaseException]
  | TypeError => [TypeError; Exception; BaseException]
  | KeyError => [KeyError; Exception; BaseException]
  | AttributeError => [AttributeError; Exception; BaseException]
  | AlreadyProcessingError => [AlreadyProcessingError; Exception; BaseException]
  | AlreadyFinishedError => [AlreadyFinishedError; Exception; BaseException]
  | ResourceError => [ResourceError; Exception; BaseException]
  | TemporaryResourceError =>
      [TemporaryResourceError; ResourceError; Exception; BaseException]
  | PartiallyCompleted => [PartiallyCompleted; Exception; BaseException]
  | UserClass name base => UserClass name base :: mro base
  end.

Definition issubclass (c d : pyclass) : bool := bool_decide (d ∈ mro c).

(** [type(e).__name__] *)
Definition class_name (c : pyclass) : string :=
  match c with
  | BaseException => "BaseException"
  | Exception => "Exception"
  | KeyboardInterrupt => "KeyboardInterrupt"
  | ValueError => "ValueError"
  | TypeError => "TypeError"
  | KeyError => "KeyError"
  | AttributeError => "AttributeError"
  | AlreadyProcessingError => "AlreadyProcessingError"
  | AlreadyFinishedError => "AlreadyFinishedError"
  | ResourceError => "ResourceError"
  | TemporaryResourceError => "TemporaryResourceError"
  | PartiallyCompleted => "PartiallyCompleted"
  | UserClass name _ => name
  end.

(** An exception instance: its class, [str(e)], and the [waiting_until]
    attribute, which only the two [__init__] methods of the module set. *)
Record exception := mkExc {
  exc_class : pyclass;
  exc_str : string;
  exc_waiting_until : option datetime
}.

Global Instance exception_eq_dec : EqDecision exception.
Proof. solve_decision. Defined.

Definition isinstance (e : exception) (c : pyclass) : bool :=
  issubclass (exc_class e) c.

(** What follows [except]: one class or a tuple of classes. *)
Inductive exc_spec :=
| OneClass (c : pyclass)
| ClassTuple (cs : list pyclass).

Definition matches (e : exception) (spec : exc_spec) : bool :=
  match spec with
  | OneClass c => isinstance e c
  | ClassTuple cs => existsb (isinstance e) cs
  end.

(** [ignore_exc or ()], where [ignore_exc] may be [None]: a class is true,
    a tuple is true unless it is empty. *)
Definition or_empty (ignore_exc : option exc_spec) : exc_spec :=
  match ignore_exc with
  | None => ClassTuple []
  | Some (OneClass c) => OneClass c
  | Some (ClassTuple []) => ClassTuple []
  | Some (ClassTuple cs) => ClassTuple cs
  end.

(** ** Logging levels *)

Inductive level := DEBUG | INFO | WARNING | ERROR.

Definition severity (l : level) : Z :=
  match l with DEBUG => 10 | INFO => 20 | WARNING => 30 | ERROR => 40 end.

(** ** Results *)

Inductive result (A : Type) :=
| Return (a : A)
| Raise (e : exception).
Arguments Return {A} a.
Arguments Raise {A} e.

(** ** Observable events *)

(** The calls a run makes to the abstract methods of the downloader and to
    the logger, in the order they happen. *)
Inductive event (Request : Type) :=
| SessionEnter (request : Request)
| SessionExit (request : Request)
| Load (request : Request)
| Save (request : Request) (st : status)
| Exec (request : Request)
| AddHandler (path : string)
| CloseHandler (path : string)
| RemoveHandler (path : string)
| Log (lvl : level) (msg : string) (exc_info : bool).
Arguments SessionEnter {Request} request.
Arguments SessionExit {Request} request.
Arguments Load {Request} request.
Arguments Save {Request} request st.
Arguments Exec {Request} request.
Arguments AddHandler {Request} path.
Arguments CloseHandler {Request} path.
Arguments RemoveHandler {Request} path.
Arguments Log {Request} lvl msg exc_info.

Definition is_exec {Request} (ev : event Request) : bool :=
  match ev with Exec _ => true | _ => false end.

Definition is_save {Request} (ev : event Request) : bool :=
  match ev with Save _ _ => true | _ => false end.

Definition is_log {Request} (ev : event Request) : bool :=
  match ev with Log _ _ _ => true | _ => false end.

(** The status records written by a run, oldest first. *)
Definition saved {Request} (evs : list (event Request)) : list status :=
  omap (fun ev => match ev with Save _ st => Some st | _ => None end) evs.
Global Arguments saved : simpl never.

(** A status record as the runner writes it: claimed and not finished, or
    released. *)
Definition well_marked (st : status) : Prop :=
  (st !! "processing" = Some (VBool true) /\
   st !! "finished" = Some (VBool false))
  \/ st !! "processing" = Some (VBool false).

(** ** The monad of runs *)

(** The outcome of running a piece of code: what it returned or raised,
    the world it left, and the events it produced. *)
Record run (Request World A : Type) := mkRun {
  res : result A;
  final : World;
  events : list (event Request)
}.
Arguments mkRun {Request World A} res final events.
Arguments res {Request World A} r.
Arguments final {Request World A} r.
Arguments events {Request World A} r.

Definition M (Request World A : Type) : Type := World -> run Request World A.

Section Monad.
Context {Request World : Type}.

Definition ret {A} (a : A) : M Request World A :=
  fun w => mkRun (Return a) w [].

Definition raise {A} (e : exception) : M Request World A :=
  fun w => mkRun (Raise e) w [].

Definition bind {A B} (m : M Request World A) (k : A -> M Request World B)
  : M Request World B :=
  fun w =>
    match m w with
    | mkRun (Return a) w1 evs1 =>
        match k a w1 with
        | mkRun o w2 evs2 => mkRun o w2 (evs1 ++ evs2)
        end
    | mkRun (Raise e) w1 evs1 => mkRun (Raise e) w1 evs1
    end.

Definition emit (ev : event Request) : M Request World unit :=
  fun w => mkRun (Return tt) w [ev].

(** Reads the world without changing it. *)
Definition ask {A} (f : World -> A) : M Request World A :=
  fun w => mkRun (Return (f w)) w [].

(** Replaces the world. *)
Definition modify (f : World -> World) : M Request World unit :=
  fun w => mkRun (Return tt) (f w) [].

(** Return or raise what an earlier run ended with. *)
Definition of_result {A} (o : result A) : M Request World A :=
  fun w => mkRun o w [].

(** Runs [m] and hands its result over as a value, exception included. *)
Definition attempt {A} (m : M Request World A) : M Request World (result A) :=
  fun w => match m w with mkRun o w1 evs => mkRun (Return o) w1 evs end.

(** [try: body finally: fin].  An exception of [fin] replaces the outcome
    of [body]. *)
Definition try_finally {A} (body : M Request World A)
    (fin : M Request World unit) : M Request World A :=
  fun w =>
    match body w with
    | mkRun o w1 evs1 =>
        match fin w1 with
        | mkRun (Return _) w2 evs2 => mkRun o w2 (evs1 ++ evs2)
        | mkRun (Raise e) w2 evs2 => mkRun (Raise e) w2 (evs1 ++ evs2)
        end
    end.

(** The first [except] clause that matches the exception handles it; with
    none, the exception goes on. *)
Fixpoint dispatch {A}
    (handlers : list (exc_spec * (exception -> M Request World A)))
    (e : exception) : M Request World A :=
  match handlers with
  | [] => raise e
  | (spec, h) :: rest => if matches e spec then h e else dispatch rest e
  end.

(** [try: body except ...: ... else: els].  The clauses do not cover
    [els]. *)
Definition try_except_else {A B} (body : M Request World A)
    (handlers : list (exc_spec * (exception -> M Request World B)))
    (els : A -> M Request World B) : M Request World B :=
  bind (attempt body) (fun o =>
    match o with
    | Return a => els a
    | Raise e => dispatch handlers e
    end).

Definition try_except {A} (body : M Request World A)
    (handlers : list (exc_spec * (exception -> M Request World A)))
  : M Request World A :=
  try_except_else body handlers ret.

End Monad.

Notation "'let*' x ':=' m 'in' k" := (bind m (fun x => k))
  (at level 10, x name, m at level 100, k at level 200).
Notation "m '>>' k" := (bind m (fun _ => k))
  (at level 60, right associativity).

(** ** What the module takes from outside *)

(** The clock behind [utcnow], and [str] on the values of a status dict
    (used only to format a message). *)
Class Host (World : Type) := {
  clock_us : World -> Z;
  py_str : value -> string
}.

(** The abstract methods of [BaseDownloader].  The world stands for the
    status store and everything else the work can touch.
    [_exclusive_session] has no field: a session shows as the events
    [SessionEnter] and [SessionExit] around what runs inside it, it is
    released on every exit, and the session object that [_load_status] and
    [_save_status] receive is left out.  The store methods do not raise. *)
Class BaseDownloader (Args Request World : Type) := {
  as_requests : Args -> list Request;
  archive_prefix : Request -> string;
  _force_download : Request -> World -> result unit * World;
  _load_status : World -> Request -> status;
  _save_status : World -> Request -> status -> World
}.

Section Exceptions.
Context {Request World : Type} `{Host World}.

(** Modelled from the spec: [freefall.utils.utcnow] is imported by the
    module and is not among the sources; it gives the current UTC time, as
    a timestamp that carries its timezone. *)
Definition utcnow : M Request World datetime :=
  ask (fun w => mkDatetime (clock_us w) (Some 0)).

(** [TemporaryResourceError.__init__(self, *args, try_again_later=None)],
    for an instance of class [cls]; [msg] is what [str] gives for [args].
    Returns the initialised instance. *)
Definition TemporaryResourceError_init (cls : pyclass) (msg : string)
    (try_again_later : value) : M Request World exception :=
  let* waiting_until :=
    (if truthy try_again_later then ret try_again_later
     else let* t := utcnow in ret (VDatetime t)) in
  match waiting_until with
  | VDatetime d =>
      match tzinfo d with
      | None => raise (mkExc ValueError "no timezone" None)
      | Some _ => ret (mkExc cls msg (Some d))
      end
  | _ => raise (mkExc AttributeError "tzinfo" None)
  end.

(** [PartiallyCompleted.__init__(self, *args, try_again_later=None)] *)
Definition PartiallyCompleted_init (cls : pyclass) (msg : string)
    (try_again_later : value) : M Request World exception :=
  let* waiting_until :=
    (if truthy try_again_later then ret try_again_later
     else let* t := utcnow in ret (VDatetime t)) in
  match waiting_until with
  | VDatetime d =>
      match tzinfo d with
      | None => raise (mkExc ValueError "no timezone" None)
      | Some _ => ret (mkExc cls msg (Some d))
      end
  | _ => raise (mkExc AttributeError "tzinfo" None)
  end.

(** [status[k]] *)
Definition getitem (st : status) (k : string) : M Request World value :=
  match st !! k with
  | Some v => ret v
  | None => raise (mkExc KeyError k None)
  end.

(** [v > now] where [now] is a timestamp: any other kind of value on the
    left is a [TypeError]. *)
Definition gt_datetime (v : value) (now : datetime) : M Request World bool :=
  match v with
  | VDatetime d =>
      match datetime_gt d now with
      | Some b => ret b
      | None =>
          raise (mkExc TypeError
                   "can't compare offset-naive and offset-aware datetimes" None)
      end
  | _ => raise (mkExc TypeError "'>' not supported" None)
  end.

End Exceptions.

Section Downloader.
Context {Args Request World : Type} `{Host World}
        `{BaseDownloader Args Request World}.

Local Abbreviation M := (M Request World).

(** [with self._exclusive_session(request) as session: body] *)
Definition with_session {A} (request : Request) (body : M A) : M A :=
  emit (SessionEnter request) >>
  try_finally body (emit (SessionExit request)).

(** [self._load_status(session, request)] *)
Definition load_status (request : Request) : M status :=
  emit (Load request) >> ask (fun w => _load_status w request).

(** [self._save_status(session, request, status)] *)
Definition save_status (request : Request) (st : status) : M unit :=
  emit (Save request st) >> modify (fun w => _save_status w request st).

(** [self._force_download(request)] *)
Definition force_download (request : Request) : M unit :=
  emit (Exec request) >>
  (fun w => let '(o, w') := _force_download request w in mkRun o w' []).

(** Lines 95-97 of [_process_request]: the three assignments that claim
    the request. *)
Definition admitted (st : status) : status :=
  <["failed" := VBool false]>
    (<["finished" := VBool false]> (<["processing" := VBool true]> st)).

(** The events of a session that only loads. *)
Definition looked (request : Request) : list (event Request) :=
  [SessionEnter request; Load request; SessionExit request].

(** What the first session leaves when it lets the request through: one
    write, of the claimed status. *)
Definition let_through (request : Request) (w : World)
  : run Request World unit :=
  let st := admitted (_load_status w request) in
  mkRun (Return tt) (_save_status w request st)
        [SessionEnter request; Load request; Save request st;
         SessionExit request].

(** Lines 81-98 of [_process_request]: the first session. *)
Definition admission (request : Request) : M unit :=
  with_session request (
    let* st := load_status request in
    if truthy (status_get st "processing") then
      raise (mkExc AlreadyProcessingError "" None)
    else if truthy (status_get st "finished") then
      raise (mkExc AlreadyFinishedError "" None)
    else
      let* t := utcnow in
      let now := add_seconds (replace_microsecond0 t) 1 in
      let* later :=
        gt_datetime (status_get_default st "waiting_until" (VDatetime now))
                    now in
      if later then
        let* shown := getitem st "waiting_until" in
        let* again := getitem st "waiting_until" in
        let* e := TemporaryResourceError_init TemporaryResourceError
                    ("Please try again later " +:+ py_str shown) again in
        raise e
      else
        save_status request (admitted st)).

(** Lines 106-120 of [_process_request]: the [except] clauses and the
    [else] clause of the outer [try], applied to the status reloaded after
    the work and to what the work ended with.  Gives the updated status and
    what is returned or raised once the [finally] clause has run.
    [e.waiting_until] on an instance that never went through [__init__] is
    an [AttributeError]. *)
Definition resolve (st : status) (outcome : result unit)
  : status * result unit :=
  match outcome with
  | Raise e =>
      if isinstance e PartiallyCompleted then
        match exc_waiting_until e with
        | Some t => (<["waiting_until" := VDatetime t]> st, Return tt)
        | None => (st, Raise (mkExc AttributeError "waiting_until" None))
        end
      else if isinstance e TemporaryResourceError then
        match exc_waiting_until e with
        | Some t =>
            (<["failed" := VBool true]>
               (<["waiting_until" := VDatetime t]> st), Raise e)
        | None => (st, Raise (mkExc AttributeError "waiting_until" None))
        end
      else if isinstance e ResourceError then
        (<["failed" := VBool true]> (<["finished" := VBool true]> st), Raise e)
      else if isinstance e BaseException then
        (<["failed" := VBool true]> st, Raise e)
      else (st, Raise e)
  | Return _ => (<["finished" := VBool true]> st, Return tt)
  end.

(** Line 122 after lines 106-120: the status that the last session
    saves. *)
Definition resolved (st : status) (outcome : result unit) : status :=
  <["processing" := VBool false]> (fst (resolve st outcome)).

(** Lines 100-125 of [_process_request]: the work, the reload in the inner
    [finally], the clauses, and the outer [finally] that clears
    [processing] and saves. *)
Definition execution_resolution (request : Request) : M unit :=
  let* outcome := attempt (force_download request) in
  let* st := with_session request (load_status request) in
  with_session request (save_status request (resolved st outcome)) >>
  of_result (snd (resolve st outcome)).

Definition _process_request (request : Request) : M unit :=
  admission request >> execution_resolution request.

(** [n] calls in a row by a caller that catches what each call raises;
    gives what each call ended with. *)
Fixpoint process_repeatedly (n : nat) (request : Request)
  : M (list (result unit)) :=
  match n with
  | O => ret []
  | S n' =>
      let* o := attempt (_process_request request) in
      let* os := process_repeatedly n' request in
      ret (o :: os)
  end.

(** [Path(self.archive_prefix(request)) / 'log.txt'] *)
Definition log_path (request : Request) : string :=
  archive_prefix request +:+ "/log.txt".

Definition log (lvl : level) (msg : string) (exc_info : bool) : M unit :=
  emit (Log lvl msg exc_info).

(** The body of the loop of [download]. *)
Definition download_request (request : Request)
    (ignore_exc : option exc_spec) : M unit :=
  emit (AddHandler (log_path request)) >>
  try_except
    (try_finally
       (try_except_else (_process_request request)
          [ (ClassTuple [AlreadyFinishedError; AlreadyProcessingError],
             fun e => raise e);
            (OneClass TemporaryResourceError, fun e => raise e);
            (OneClass ResourceError,
             fun e =>
               log WARNING (class_name (exc_class e) +:+ ": " +:+ exc_str e)
                   false >>
               log DEBUG "Detail" true >>
               raise e);
            (OneClass BaseException,
             fun e => log ERROR (exc_str e) true >> raise e) ]
          (fun _ => log INFO "Finished successfully" false))
       (emit (CloseHandler (log_path request)) >>
        emit (RemoveHandler (log_path request))))
    [ (OneClass AlreadyFinishedError,
       fun _ => log INFO "Already finished" false);
      (OneClass AlreadyProcessingError,
       fun _ => log INFO "Already downloading" false);
      (OneClass TemporaryResourceError,
       fun _ => log INFO "Request temporary unavailable" false);
      (or_empty ignore_exc, fun _ => ret tt) ].

(** The [for] loop: an exception that gets out of the body ends it. *)
Fixpoint download_requests (requests : list Request)
    (ignore_exc : option exc_spec) : M unit :=
  match requests with
  | [] => ret tt
  | request :: rest =>
      download_request request ignore_exc >> download_requests rest ignore_exc
  end.

(** [download(self, args, ignore_exc=ResourceError)] *)
Definition download (args : Args) (ignore_exc : option exc_spec) : M unit :=
  download_requests (as_requests args) ignore_exc.

End Downloader.

(** The default value of [ignore_exc]. *)
Definition default_ignore_exc : option exc_spec := Some (OneClass ResourceError).

(** ** Observations on the events of a run *)

Definition is_handler {Request} (ev : event Request) : bool :=
  match ev with
  | AddHandler _ | CloseHandler _ | RemoveHandler _ => true
  | _ => false
  end.

(** The log files that a run attached to the logger, oldest first. *)
Definition added {Request} (evs : list (event Request)) : list string :=
  omap (fun ev => match ev with AddHandler p => Some p | _ => None end) evs.
Global Arguments added : simpl never.

(** The request that a call to an abstract method is about. *)
Definition event_request {Request} (ev : event Request) : option Request :=
  match ev with
  | SessionEnter r | SessionExit r | Load r | Save r _ | Exec r => Some r
  | _ => None
  end.

(** Reads the events in order, keeping track of whether a session is open:
    a session is not entered twice, the status is loaded and saved only
    inside a session, the work runs only outside.  Gives [None] when the
    events break this, and otherwise whether a session is left open. *)
Fixpoint session_walk {Request} (inside : bool) (evs : list (event Request))
  : option bool :=
  match evs with
  | [] => Some inside
  | ev :: rest =>
      match ev with
      | SessionEnter _ => if inside then None else session_walk true rest
      | SessionExit _ => if inside then session_walk false rest else None
      | Load _ | Save _ _ => if inside then session_walk true rest else None
      | Exec _ => if inside then None else session_walk false rest
      | _ => session_walk inside rest
      end
  end.

(** What the loop body of [download] makes of an exception of the runner:
    [true] when one of the last four [except] clauses (lines 71-78)
    catches it. *)
Definition swallowed (ignore_exc : option exc_spec) (e : exception) : bool :=
  isinstance e AlreadyFinishedError
  || isinstance e AlreadyProcessingError
  || isinstance e TemporaryResourceError
  || matches e (or_empty ignore_exc).

(** ** A concrete downloader *)

(** A downloader over an in-memory store, to run the definitions on: a
    request is a name, and the name decides what the work does. *)
Module Demo.

Record world := mkWorld { db : gmap string status; now_us : Z }.

#[export] Instance host : Host world :=
  {| clock_us := now_us; py_str := fun _ => "<value>" |}.

(** 1970-01-01 02:00:00 UTC *)
Definition deadline : datetime := mkDatetime 7200000000 (Some 0).

(** The same fields without a timezone. *)
Definition naive_deadline : datetime := mkDatetime 7200000000 None.

Definition work (request : string) : M string world unit :=
  if String.eqb request "partial" then
    let* e := PartiallyCompleted_init PartiallyCompleted "half done"
                (VDatetime deadline) in
    raise e
  else if String.eqb request "temporary" then
    let* e := TemporaryResourceError_init TemporaryResourceError "busy"
                (VDatetime deadline) in
    raise e
  else if String.eqb request "naive" then
    let* e := TemporaryResourceError_init TemporaryResourceError "busy"
                (VDatetime naive_deadline) in
    raise e
  else if String.eqb request "gone" then
    raise (mkExc ResourceError "404" None)
  else if String.eqb request "forbidden" then
    raise (mkExc (UserClass "Forbidden" ResourceError) "403" None)
  else if String.eqb request "bug" then
    raise (mkExc ValueError "bad input" None)
  else if String.eqb request "skip" then
    raise (mkExc AlreadyFinishedError "" None)
  else ret tt.

#[export] Instance downloader : BaseDownloader (list string) string world :=
  {| as_requests := fun args => args;
     archive_prefix := fun request => "archive/" +:+ request;
     _force_download := fun request w =>
       let r := work request w in (res r, final r);
     _load_status := fun w request => default ∅ (db w !! request);
     _save_status := fun w request st =>
       mkWorld (<[request := st]> (db w)) (now_us w) |}.

(** An empty store at 1970-01-01 00:00:00.25 UTC. *)
Definition fresh : world := mkWorld ∅ 250000.

Definition with_status (request : string) (st : status) (w : world) : world :=
  mkWorld (<[request := st]> (db w)) (now_us w).

End Demo.

(** * Properties *)

(** ** The class tree *)

Lemma issubclass_true c d : issubclass c d = true <-> d ∈ mro c.
Proof. unfold issubclass. apply bool_decide_eq_true. Qed.

Lemma issubclass_false c d : issubclass c d = false <-> d ∉ mro c.
Proof. unfold issubclass. apply bool_decide_eq_false. Qed.

Lemma mro_self c : c ∈ mro c.
Proof. destruct c; cbn; apply elem_of_cons; now left. Qed.

(** Every class of the model is an exception class. *)
Lemma mro_BaseException c : BaseException ∈ mro c.
Proof.
  induction c as [| | | | | | | | | | | | name base IH]; cbn;
    rewrite !elem_of_cons; tauto.
Qed.

(** The ancestors of an ancestor are ancestors. *)
Lemma mro_trans c d x : d ∈ mro c -> x ∈ mro d -> x ∈ mro c.
Proof.
  intros Hd. revert x.
  induction c as [| | | | | | | | | | | | name base IH]; cbn in *;
    try (repeat (apply elem_of_cons in Hd as [-> | Hd]);
         [ intros x; cbn; rewrite !elem_of_cons; tauto .. | now apply elem_of_nil in Hd ]).
  apply elem_of_cons in Hd as [-> | Hd]; intros x Hx.
  - exact Hx.
  - apply elem_of_cons. right. now apply IH.
Qed.

(** Single inheritance: two ancestors of one class lie on one branch. *)
Lemma mro_chain c a b : a ∈ mro c -> b ∈ mro c -> a ∈ mro b \/ b ∈ mro a.
Proof.
  revert a b.
  induction c as [| | | | | | | | | | | | name base IH]; cbn; intros a b Ha Hb;
    try (repeat (apply elem_of_cons in Ha as [-> | Ha]);
         [ repeat (apply elem_of_cons in Hb as [-> | Hb]);
           [ cbn; rewrite !elem_of_cons; tauto ..
           | now apply elem_of_nil in Hb ] ..
         | now apply elem_of_nil in Ha ]).
  apply elem_of_cons in Ha as [-> | Ha].
  - right. cbn. exact Hb.
  - apply elem_of_cons in Hb as [-> | Hb].
    + left. cbn. apply elem_of_cons. now right.
    + now apply IH.
Qed.

Lemma isinstance_BaseException e : isinstance e BaseException = true.
Proof. apply issubclass_true, mro_BaseException. Qed.

Lemma isinstance_trans e c d :
  isinstance e c = true -> issubclass c d = true -> isinstance e d = true.
Proof.
  unfold isinstance. rewrite !issubclass_true. apply mro_trans.
Qed.

(** An instance of [c] is no instance of a class on another branch. *)
Lemma isinstance_other_branch e c d :
  isinstance e c = true ->
  issubclass c d = false -> issubclass d c = false ->
  isinstance e d = false.
Proof.
  unfold isinstance. rewrite issubclass_true, !issubclass_false.
  intros Hc Hcd Hdc Hd. destruct (mro_chain _ _ _ Hc Hd); tauto.
Qed.

(** Not an instance of a class, so not one of a class below it. *)
Lemma isinstance_not_below e c d :
  isinstance e d = false -> issubclass c d = true -> isinstance e c = false.
Proof.
  intros Hd Hcd. destruct (isinstance e c) eqn:Hc; [| reflexivity].
  rewrite (isinstance_trans e c d Hc Hcd) in Hd. discriminate.
Qed.

(** ** Arithmetic of the grace boundary *)

(** Line 89 computes the grace boundary: the clock cut to whole seconds,
    plus one second. *)
Lemma boundary_wall now_us :
  wall_us (add_seconds (replace_microsecond0 (mkDatetime now_us (Some 0))) 1)
  = grace_boundary_us now_us.
Proof.
  unfold grace_boundary_us. cbn.
  pose proof (Z.mod_eq now_us 1000000). lia.
Qed.

(** The comparison of line 90 for a deadline that carries its timezone. *)
Lemma datetime_gt_aware d off now_us :
  tzinfo d = Some off ->
  datetime_gt d
    (add_seconds (replace_microsecond0 (mkDatetime now_us (Some 0))) 1)
  = Some (grace_boundary_us now_us <? wall_us d - off).
Proof.
  intros Htz. unfold datetime_gt. rewrite Htz.
  cbn [tzinfo add_seconds replace_microsecond0].
  rewrite boundary_wall. now rewrite Z.sub_0_r.
Qed.

(** A deadline without timezone cannot be compared with the clock. *)
Lemma datetime_gt_naive d now_us :
  tzinfo d = None ->
  datetime_gt d
    (add_seconds (replace_microsecond0 (mkDatetime now_us (Some 0))) 1)
  = None.
Proof. intros Htz. unfold datetime_gt. now rewrite Htz. Qed.

Lemma saved_app {Request} (evs1 evs2 : list (event Request)) :
  saved (evs1 ++ evs2) = saved evs1 ++ saved evs2.
Proof. unfold saved. apply omap_app. Qed.

Lemma saved_cons_other {Request} (ev : event Request) evs :
  is_save ev = false -> saved (ev :: evs) = saved evs.
Proof. destruct ev; cbn; intros Hev; try discriminate; reflexivity. Qed.

(** ** Runs of the request runner *)

Section Runner.
Context {Args Request World : Type} `{Host World}
        `{BaseDownloader Args Request World}.

Ltac unfold_run :=
  unfold _process_request, execution_resolution, admission, with_session,
    load_status, save_status, force_download, getitem,
    TemporaryResourceError_init, gt_datetime, try_finally, bind, emit, ask,
    modify, raise, ret, utcnow, attempt, of_result, status_get_default.

Lemma admission_processing request w :
  truthy (status_get (_load_status w request) "processing") = true ->
  admission request w
  = mkRun (Raise (mkExc AlreadyProcessingError "" None)) w (looked request).
Proof. intros Hp. unfold_run. cbn. rewrite Hp. reflexivity. Qed.

Lemma admission_finished request w :
  truthy (status_get (_load_status w request) "processing") = false ->
  truthy (status_get (_load_status w request) "finished") = true ->
  admission request w
  = mkRun (Raise (mkExc AlreadyFinishedError "" None)) w (looked request).
Proof. intros Hp Hf. unfold_run. cbn. rewrite Hp, Hf. reflexivity. Qed.

Lemma admission_waiting request w d off :
  truthy (status_get (_load_status w request) "processing") = false ->
  truthy (status_get (_load_status w request) "finished") = false ->
  _load_status w request !! "waiting_until" = Some (VDatetime d) ->
  tzinfo d = Some off ->
  grace_boundary_us (clock_us w) < wall_us d - off ->
  admission request w
  = mkRun (Raise (mkExc TemporaryResourceError
                    ("Please try again later " +:+ py_str (VDatetime d))
                    (Some d)))
          w (looked request).
Proof.
  intros Hp Hf Hw Htz Hlate. unfold_run. cbn. rewrite Hp, Hf, Hw. cbn.
  rewrite (datetime_gt_aware d off) by exact Htz.
  replace (grace_boundary_us (clock_us w) <? wall_us d - off) with true
    by (symmetry; apply Z.ltb_lt; lia).
  cbn. rewrite Htz. reflexivity.
Qed.

Lemma admission_due request w d off :
  truthy (status_get (_load_status w request) "processing") = false ->
  truthy (status_get (_load_status w request) "finished") = false ->
  _load_status w request !! "waiting_until" = Some (VDatetime d) ->
  tzinfo d = Some off ->
  wall_us d - off <= grace_boundary_us (clock_us w) ->
  admission request w = let_through request w.
Proof.
  intros Hp Hf Hw Htz Hdue. unfold_run. cbn. rewrite Hp, Hf, Hw. cbn.
  rewrite (datetime_gt_aware d off) by exact Htz.
  replace (grace_boundary_us (clock_us w) <? wall_us d - off) with false
    by (symmetry; apply Z.ltb_ge; lia).
  reflexivity.
Qed.

Lemma admission_unrestricted request w :
  truthy (status_get (_load_status w request) "processing") = false ->
  truthy (status_get (_load_status w request) "finished") = false ->
  _load_status w request !! "waiting_until" = None ->
  admission request w = let_through request w.
Proof.
  intros Hp Hf Hw. unfold_run. cbn. rewrite Hp, Hf, Hw. cbn.
  rewrite Z.ltb_irrefl. reflexivity.
Qed.

(** The first session either raises without a write, or lets the request
    through with exactly one. *)
Lemma admission_cases request w :
  (exists e, admission request w = mkRun (Raise e) w (looked request))
  \/ admission request w = let_through request w.
Proof.
  destruct (truthy (status_get (_load_status w request) "processing")) eqn:Hp.
  { left. eexists. now apply admission_processing. }
  destruct (truthy (status_get (_load_status w request) "finished")) eqn:Hf.
  { left. eexists. now apply admission_finished. }
  destruct (_load_status w request !! "waiting_until") as [v |] eqn:Hw.
  2: { right. now apply admission_unrestricted. }
  destruct v as [| b | z | s | d];
    try (left; eexists; unfold_run; cbn; rewrite Hp, Hf, Hw; reflexivity).
  destruct (tzinfo d) as [off |] eqn:Htz.
  - destruct (Z.lt_ge_cases (grace_boundary_us (clock_us w)) (wall_us d - off)).
    + left. eexists. eapply admission_waiting; eauto.
    + right. eapply admission_due; eauto.
  - left. eexists. unfold_run. cbn. rewrite Hp, Hf, Hw. cbn.
    rewrite datetime_gt_naive by exact Htz. reflexivity.
Qed.

Lemma admission_returns request w :
  res (admission request w) = Return tt ->
  admission request w = let_through request w.
Proof.
  intros Hres. destruct (admission_cases request w) as [[e He] | Hok].
  - rewrite He in Hres. discriminate.
  - exact Hok.
Qed.

(** The work, the reload and the last session, from any world. *)
Lemma execution_resolution_run request w :
  let o := (_force_download request w).1 in
  let w2 := (_force_download request w).2 in
  let st := resolved (_load_status w2 request) o in
  execution_resolution request w
  = mkRun (snd (resolve (_load_status w2 request) o))
          (_save_status w2 request st)
          (Exec request :: looked request ++
           [SessionEnter request; Save request st; SessionExit request]).
Proof.
  unfold_run. cbn. destruct (_force_download request w) as [o w2]. cbn.
  destruct (resolve (_load_status w2 request) o).2; reflexivity.
Qed.

(** A request that is let through: the whole run. *)
Lemma process_request_admitted request w :
  res (admission request w) = Return tt ->
  let w1 := _save_status w request (admitted (_load_status w request)) in
  let o := (_force_download request w1).1 in
  let w2 := (_force_download request w1).2 in
  let st := resolved (_load_status w2 request) o in
  _process_request request w
  = mkRun (snd (resolve (_load_status w2 request) o))
          (_save_status w2 request st)
          ([SessionEnter request; Load request;
            Save request (admitted (_load_status w request));
            SessionExit request; Exec request] ++ looked request ++
           [SessionEnter request; Save request st; SessionExit request]).
Proof.
  intros Hadm. apply admission_returns in Hadm.
  unfold _process_request, bind. rewrite Hadm. unfold let_through.
  rewrite execution_resolution_run. reflexivity.
Qed.

(** A request that is turned away: nothing but the first session runs. *)
Lemma process_request_rejected request w e :
  admission request w = mkRun (Raise e) w (looked request) ->
  _process_request request w = mkRun (Raise e) w (looked request).
Proof. intros Hadm. unfold _process_request, bind. now rewrite Hadm. Qed.

Lemma no_exec_looked (request request' : Request) :
  Exec request' ∉ looked request.
Proof.
  unfold looked. rewrite !not_elem_of_cons. repeat split; try discriminate.
  apply not_elem_of_nil.
Qed.

(** ** Requests that are turned away *)

(** C8.  When the status loaded at admission has [processing] true,
    [_process_request] raises [AlreadyProcessingError]; the run is the one
    session that loads the status, so the work is never called, nothing is
    written, and there is no waiting step of any kind. *)
Theorem C8_already_processing request w :
  truthy (status_get (_load_status w request) "processing") = true ->
  let r := _process_request request w in
  res r = Raise (mkExc AlreadyProcessingError "" None) /\
  final r = w /\
  events r = [SessionEnter request; Load request; SessionExit request] /\
  (forall request', Exec request' ∉ events r).
Proof.
  intros Hp r. subst r.
  rewrite (process_request_rejected request w _ (admission_processing _ _ Hp)).
  cbn [res final events]. repeat split. intros request'. apply no_exec_looked.
Qed.

(** Any number of calls on a finished request. *)
Lemma process_repeatedly_finished request w n :
  truthy (status_get (_load_status w request) "processing") = false ->
  truthy (status_get (_load_status w request) "finished") = true ->
  process_repeatedly n request w
  = mkRun (Return (replicate n (Raise (mkExc AlreadyFinishedError "" None))))
          w (concat (replicate n (looked request))).
Proof.
  intros Hp Hf. induction n as [| n IH].
  - reflexivity.
  - cbn [process_repeatedly]. unfold bind at 1, attempt.
    rewrite (process_request_rejected request w _
               (admission_finished _ _ Hp Hf)).
    unfold bind at 1. rewrite IH. unfold ret. cbn [replicate concat].
    now rewrite app_nil_r.
Qed.

Lemma no_exec_repeated_look (request request' : Request) n :
  Exec request' ∉ concat (replicate n (looked request)).
Proof.
  induction n as [| n IH]; cbn [replicate concat].
  - apply not_elem_of_nil.
  - rewrite elem_of_app. intros [Hin | Hin]; [| now apply IH].
    now apply no_exec_looked in Hin.
Qed.

Lemma no_save_repeated_look (request : Request) n :
  saved (concat (replicate n (looked request))) = [].
Proof.
  induction n as [| n IH]; cbn [replicate concat]; [reflexivity |].
  rewrite saved_app, IH. reflexivity.
Qed.

(** C2.  When the loaded status has [finished] true and [processing] false,
    [_process_request] raises [AlreadyFinishedError] without calling the
    work and without a write; the world is left as it was, so [n] calls in
    a row all end the same way, and none of them calls the work. *)
Theorem C2_already_finished request w n :
  truthy (status_get (_load_status w request) "finished") = true ->
  truthy (status_get (_load_status w request) "processing") = false ->
  let r := _process_request request w in
  let rs := process_repeatedly n request w in
  (res r = Raise (mkExc AlreadyFinishedError "" None) /\
   final r = w /\
   events r = [SessionEnter request; Load request; SessionExit request]) /\
  (res rs = Return (replicate n (Raise (mkExc AlreadyFinishedError "" None))) /\
   final rs = w /\
   (forall request', Exec request' ∉ events rs) /\
   saved (events rs) = []).
Proof.
  intros Hf Hp r rs. subst r rs.
  rewrite (process_request_rejected request w _ (admission_finished _ _ Hp Hf)).
  rewrite (process_repeatedly_finished request w n Hp Hf).
  cbn [res final events]. repeat split.
  - intros request'. apply no_exec_repeated_look.
  - apply no_save_repeated_look.
Qed.

(** C3.  With [processing] and [finished] false and a [waiting_until] that
    carries its timezone and lies after the clock cut to whole seconds plus
    one second, [_process_request] raises a [TemporaryResourceError] whose
    [waiting_until] is the stored one; the work is not called and nothing
    is written.  From any later world that shows the same status and a
    clock for which the deadline is no longer beyond that boundary, the
    call claims the request and calls the work. *)
Theorem C3_retry_deadline request w d off :
  truthy (status_get (_load_status w request) "processing") = false ->
  truthy (status_get (_load_status w request) "finished") = false ->
  _load_status w request !! "waiting_until" = Some (VDatetime d) ->
  tzinfo d = Some off ->
  grace_boundary_us (clock_us w) < wall_us d - off ->
  let r := _process_request request w in
  (exists msg, res r = Raise (mkExc TemporaryResourceError msg (Some d))) /\
  final r = w /\
  (forall request', Exec request' ∉ events r) /\
  saved (events r) = [] /\
  (forall w',
     _load_status w' request = _load_status w request ->
     wall_us d - off <= grace_boundary_us (clock_us w') ->
     res (admission request w') = Return tt /\
     Exec request ∈ events (_process_request request w')).
Proof.
  intros Hp Hf Hw Htz Hlate r. subst r.
  rewrite (process_request_rejected request w _
             (admission_waiting _ _ _ _ Hp Hf Hw Htz Hlate)).
  cbn [res final events]. split; [eauto |]. split; [reflexivity |].
  split; [intros request'; apply no_exec_looked |]. split; [reflexivity |].
  intros w' Hsame Hdue.
  assert (Hadm : admission request w' = let_through request w').
  { apply (admission_due request w' d off); rewrite ?Hsame; assumption. }
  assert (Hres : res (admission request w') = Return tt) by now rewrite Hadm.
  split; [exact Hres |].
  rewrite (process_request_admitted request w' Hres). cbn [events].
  rewrite !elem_of_app, !elem_of_cons. tauto.
Qed.

(** ** Requests that are let through *)

(** C1.  Once the first session has let the request through, whatever the
    work does (return, or raise anything at all), the run ends with a
    session that saves a status whose [processing] is [False]; that write
    is the last one, and a store that gives back what was saved shows
    [processing] false afterwards. *)
Theorem C1_cleanup request w :
  res (admission request w) = Return tt ->
  let r := _process_request request w in
  exists st evs,
    events r = evs ++ [SessionEnter request; Save request st; SessionExit request] /\
    Exec request ∈ evs /\
    last (saved (events r)) = Some st /\
    st !! "processing" = Some (VBool false) /\
    ((forall w0 st0, _load_status (_save_status w0 request st0) request = st0) ->
     _load_status (final r) request = st).
Proof.
  intros Hadm r. subst r.
  rewrite (process_request_admitted request w Hadm). cbn [res final events].
  eexists. eexists. split.
  { rewrite app_assoc. reflexivity. }
  split.
  { rewrite !elem_of_app, !elem_of_cons. tauto. }
  split.
  { reflexivity. }
  split.
  { unfold resolved. apply lookup_insert_eq. }
  intros Hstore. apply Hstore.
Qed.

(** ** The [except] clauses of the runner *)

Lemma resolve_returned st : resolve st (Return tt) = (<["finished" := VBool true]> st, Return tt).
Proof. reflexivity. Qed.

Lemma resolve_partial st e t :
  isinstance e PartiallyCompleted = true ->
  exc_waiting_until e = Some t ->
  resolve st (Raise e) = (<["waiting_until" := VDatetime t]> st, Return tt).
Proof. intros Hc Ht. unfold resolve. now rewrite Hc, Ht. Qed.

Lemma resolve_temporary st e t :
  isinstance e TemporaryResourceError = true ->
  exc_waiting_until e = Some t ->
  resolve st (Raise e)
  = (<["failed" := VBool true]> (<["waiting_until" := VDatetime t]> st),
     Raise e).
Proof.
  intros Hc Ht. unfold resolve.
  rewrite (isinstance_other_branch e TemporaryResourceError PartiallyCompleted)
    by (exact Hc || reflexivity).
  now rewrite Hc, Ht.
Qed.

Lemma resolve_resource st e :
  isinstance e ResourceError = true ->
  isinstance e TemporaryResourceError = false ->
  resolve st (Raise e)
  = (<["failed" := VBool true]> (<["finished" := VBool true]> st), Raise e).
Proof.
  intros Hc Hn. unfold resolve.
  rewrite (isinstance_other_branch e ResourceError PartiallyCompleted)
    by (exact Hc || reflexivity).
  now rewrite Hn, Hc.
Qed.

Lemma resolve_other st e :
  isinstance e PartiallyCompleted = false ->
  isinstance e ResourceError = false ->
  resolve st (Raise e) = (<["failed" := VBool true]> st, Raise e).
Proof.
  intros Hp Hr. unfold resolve.
  rewrite Hp, (isinstance_not_below e TemporaryResourceError ResourceError)
    by (exact Hr || reflexivity).
  now rewrite Hr, isinstance_BaseException.
Qed.

(** Whatever the clauses do, the status saved at the end has [processing]
    false. *)
Lemma resolved_processing st o :
  resolved st o !! "processing" = Some (VBool false).
Proof. unfold resolved. apply lookup_insert_eq. Qed.

(** The status that the first session writes. *)
Lemma admitted_lookup st :
  admitted st !! "processing" = Some (VBool true) /\
  admitted st !! "finished" = Some (VBool false) /\
  admitted st !! "failed" = Some (VBool false).
Proof. unfold admitted. repeat split; now simplify_map_eq. Qed.

(** The status the work finds and leaves, when the store gives back what
    was saved and the work does not touch the record of the request. *)
Lemma reloaded_admitted request w w2 o :
  res (admission request w) = Return tt ->
  _force_download request (final (admission request w)) = (o, w2) ->
  (forall w0 st0, _load_status (_save_status w0 request st0) request = st0) ->
  _load_status w2 request = _load_status (final (admission request w)) request ->
  _load_status w2 request = admitted (_load_status w request).
Proof.
  intros Hadm Hwork Hstore Hframe. rewrite Hframe.
  rewrite (admission_returns request w Hadm). unfold let_through.
  cbn [final]. apply Hstore.
Qed.

(** The run of an admitted request in terms of what the work did. *)
Lemma process_request_worked request w o w2 :
  res (admission request w) = Return tt ->
  _force_download request (final (admission request w)) = (o, w2) ->
  let st := resolved (_load_status w2 request) o in
  _process_request request w
  = mkRun (snd (resolve (_load_status w2 request) o))
          (_save_status w2 request st)
          ([SessionEnter request; Load request;
            Save request (admitted (_load_status w request));
            SessionExit request; Exec request] ++ looked request ++
           [SessionEnter request; Save request st; SessionExit request]).
Proof.
  intros Hadm Hwork. rewrite (process_request_admitted request w Hadm).
  rewrite (admission_returns request w Hadm) in Hwork. unfold let_through in Hwork.
  cbn [final] in Hwork. now rewrite Hwork.
Qed.

(** ** The loop body of the driver *)

Ltac unfold_driver :=
  unfold download_request, try_except, try_except_else, try_finally, log,
    bind, attempt, emit, raise, ret.


Lemma download_request_resource request ignore_exc w e :
  res (_process_request request w) = Raise e ->
  isinstance e ResourceError = true ->
  isinstance e TemporaryResourceError = false ->
  download_request request ignore_exc w
  = mkRun (if matches e (or_empty ignore_exc) then Return tt else Raise e)
      (final (_process_request request w))
      (AddHandler (log_path request) :: events (_process_request request w) ++
       [Log WARNING (class_name (exc_class e) +:+ ": " +:+ exc_str e) false;
        Log DEBUG "Detail" true;
        CloseHandler (log_path request); RemoveHandler (log_path request)]).
Proof.
  intros Hres Hc Hn. unfold_driver.
  destruct (_process_request request w) as [o w1 evs]. cbn in Hres. subst o.
  assert (Hf : isinstance e AlreadyFinishedError = false)
    by (apply (isinstance_other_branch e ResourceError); auto).
  assert (Hp : isinstance e AlreadyProcessingError = false)
    by (apply (isinstance_other_branch e ResourceError); auto).
  cbn. rewrite Hf, Hp, Hn, Hc. cbn. rewrite Hf, Hp, Hn. cbn.
  destruct (matches e (or_empty ignore_exc)); cbn;
    now rewrite <- ?app_assoc, ?app_nil_r.
Qed.

Lemma download_request_temporary request ignore_exc w e :
  res (_process_request request w) = Raise e ->
  isinstance e TemporaryResourceError = true ->
  download_request request ignore_exc w
  = mkRun (Return tt) (final (_process_request request w))
      (AddHandler (log_path request) :: events (_process_request request w) ++
       [CloseHandler (log_path request); RemoveHandler (log_path request);
        Log INFO "Request temporary unavailable" false]).
Proof.
  intros Hres Hc. unfold_driver.
  destruct (_process_request request w) as [o w1 evs]. cbn in Hres. subst o.
  assert (Hf : isinstance e AlreadyFinishedError = false)
    by (apply (isinstance_other_branch e TemporaryResourceError); auto).
  assert (Hp : isinstance e AlreadyProcessingError = false)
    by (apply (isinstance_other_branch e TemporaryResourceError); auto).
  cbn. rewrite Hf, Hp, Hc. cbn. rewrite Hf, Hp, Hc. cbn.
  now rewrite <- ?app_assoc, ?app_nil_r.
Qed.

Lemma download_request_other request ignore_exc w e :
  res (_process_request request w) = Raise e ->
  isinstance e AlreadyFinishedError = false ->
  isinstance e AlreadyProcessingError = false ->
  isinstance e ResourceError = false ->
  download_request request ignore_exc w
  = mkRun (if matches e (or_empty ignore_exc) then Return tt else Raise e)
      (final (_process_request request w))
      (AddHandler (log_path request) :: events (_process_request request w) ++
       [Log ERROR (exc_str e) true;
        CloseHandler (log_path request); RemoveHandler (log_path request)]).
Proof.
  intros Hres Hf Hp Hr. unfold_driver.
  destruct (_process_request request w) as [o w1 evs]. cbn in Hres. subst o.
  assert (Hn : isinstance e TemporaryResourceError = false)
    by (apply (isinstance_not_below e _ ResourceError); auto).
  cbn. rewrite Hf, Hp, Hn, Hr, isinstance_BaseException. cbn.
  rewrite Hf, Hp, Hn. cbn.
  destruct (matches e (or_empty ignore_exc)); cbn;
    now rewrite <- ?app_assoc, ?app_nil_r.
Qed.

(** The driver writes no status of its own. *)
Lemma download_request_saved request ignore_exc w :
  saved (events (download_request request ignore_exc w))
  = saved (events (_process_request request w)).
Proof.
  unfold_driver.
  destruct (_process_request request w) as [[[] | e] w1 evs]; cbn.
  - rewrite saved_cons_other, !saved_app by reflexivity.
    unfold saved. cbn. now rewrite !app_nil_r.
  - destruct (isinstance e AlreadyFinishedError) eqn:Hf,
      (isinstance e AlreadyProcessingError) eqn:Hp,
      (isinstance e TemporaryResourceError) eqn:Hn,
      (isinstance e ResourceError),
      (isinstance e BaseException),
      (matches e (or_empty ignore_exc)) eqn:Hm; cbn;
      rewrite ?Hf, ?Hp, ?Hn, ?Hm; unfold raise; cbn;
      rewrite saved_cons_other, ?saved_app by reflexivity;
      unfold saved; cbn; now rewrite ?app_nil_r.
Qed.

(** ** What the work ended with, and what is saved *)


(** C6.  The work raises a [TemporaryResourceError] with deadline [t]: the
    runner raises it again, and the status saved last has [failed] true,
    [waiting_until] set to [t], [processing] false, and [finished] as
    reloaded (the [False] of the first session when the store gives back
    what was saved and the work leaves the record alone).  The work raises
    another [ResourceError]: the runner raises it again, and the status
    saved last has [finished] and [failed] true and [processing] false. *)
Theorem C6_resource_errors request w e w2 :
  res (admission request w) = Return tt ->
  _force_download request (final (admission request w)) = (Raise e, w2) ->
  let r := _process_request request w in
  (forall t,
     isinstance e TemporaryResourceError = true ->
     exc_waiting_until e = Some t ->
     res r = Raise e /\
     exists st,
       last (saved (events r)) = Some st /\
       final r = _save_status w2 request st /\
       st !! "failed" = Some (VBool true) /\
       st !! "waiting_until" = Some (VDatetime t) /\
       st !! "processing" = Some (VBool false) /\
       st !! "finished" = _load_status w2 request !! "finished" /\
       ((forall w0 st0,
           _load_status (_save_status w0 request st0) request = st0) ->
        _load_status w2 request
        = _load_status (final (admission request w)) request ->
        st !! "finished" = Some (VBool false))) /\
  (isinstance e ResourceError = true ->
   isinstance e TemporaryResourceError = false ->
   res r = Raise e /\
   exists st,
     last (saved (events r)) = Some st /\
     final r = _save_status w2 request st /\
     st !! "finished" = Some (VBool true) /\
     st !! "failed" = Some (VBool true) /\
     st !! "processing" = Some (VBool false)).
Proof.
  intros Hadm Hwork r.
  pose proof (process_request_worked request w _ _ Hadm Hwork) as Hrun.
  unfold resolved in Hrun. split.
  - intros t Hc Ht. rewrite (resolve_temporary _ e t Hc Ht) in Hrun.
    cbn [fst snd] in Hrun. subst r. rewrite Hrun. cbn [res final events].
    split; [reflexivity |]. eexists. split; [reflexivity |].
    split; [reflexivity |]. repeat split; try (now simplify_map_eq).
    intros Hstore Hframe.
    rewrite !lookup_insert_ne by discriminate.
    rewrite (reloaded_admitted _ _ _ _ Hadm Hwork Hstore Hframe).
    apply admitted_lookup.
  - intros Hc Hn. rewrite (resolve_resource _ e Hc Hn) in Hrun.
    cbn [fst snd] in Hrun. subst r. rewrite Hrun. cbn [res final events].
    split; [reflexivity |]. eexists. split; [reflexivity |].
    split; [reflexivity |]. repeat split; now simplify_map_eq.
Qed.

(** C7, amended.  The work raises an exception that is neither a
    [PartiallyCompleted] nor a [ResourceError]: the runner raises it again,
    and the status saved last has [failed] true, [processing] false and
    [finished] as reloaded.  When the exception is not one of the two skip
    signals either, the driver logs it once, at level [ERROR] (the highest
    level), with the traceback, and then raises it again unless its class
    matches [ignore_exc]; with the default [ignore_exc] it is raised
    again. *)
Theorem C7_unexpected_exception request w e w2 ignore_exc :
  res (admission request w) = Return tt ->
  _force_download request (final (admission request w)) = (Raise e, w2) ->
  isinstance e PartiallyCompleted = false ->
  isinstance e ResourceError = false ->
  let r := _process_request request w in
  let d := download_request request ignore_exc w in
  (res r = Raise e /\
   exists st,
     last (saved (events r)) = Some st /\
     final r = _save_status w2 request st /\
     st !! "failed" = Some (VBool true) /\
     st !! "finished" = _load_status w2 request !! "finished" /\
     st !! "processing" = Some (VBool false)) /\
  (isinstance e AlreadyFinishedError = false ->
   isinstance e AlreadyProcessingError = false ->
   List.filter is_log (events d) = [Log ERROR (exc_str e) true] /\
   (forall l, severity l <= severity ERROR) /\
   res d = (if matches e (or_empty ignore_exc) then Return tt else Raise e) /\
   res (download_request request default_ignore_exc w) = Raise e).
Proof.
  intros Hadm Hwork Hp Hr r d.
  pose proof (process_request_worked request w _ _ Hadm Hwork) as Hrun.
  unfold resolved in Hrun. rewrite (resolve_other _ e Hp Hr) in Hrun.
  cbn [fst snd] in Hrun.
  assert (Hraise : res r = Raise e) by (subst r; now rewrite Hrun).
  split.
  - split; [exact Hraise |]. subst r. rewrite Hrun. cbn [events final].
    eexists. split; [reflexivity |]. split; [reflexivity |].
    repeat split; now simplify_map_eq.
  - intros Hf Hpr. subst d.
    rewrite !(download_request_other request _ w e Hraise Hf Hpr Hr).
    subst r. rewrite Hrun. cbn [res final events]. split; [reflexivity |].
    split; [intros []; cbn; lia |]. split; [reflexivity |].
    cbn [default_ignore_exc or_empty matches]. now rewrite Hr.
Qed.

(** C4, amended.  A [ResourceError] raised by the runner that is not a
    [TemporaryResourceError] is logged by the driver as a summary at level
    [WARNING] and a detail record at level [DEBUG], and is then raised
    again unless its class matches [ignore_exc]: with the default it is
    suppressed, with [None] it is raised.  A [TemporaryResourceError] gets
    one record at level [INFO] and is never raised again. *)
Theorem C4_resource_error_logging request w e ignore_exc :
  res (_process_request request w) = Raise e ->
  isinstance e ResourceError = true ->
  let p := _process_request request w in
  let d := download_request request ignore_exc w in
  (isinstance e TemporaryResourceError = false ->
   events d
   = AddHandler (log_path request) :: events p ++
     [Log WARNING (class_name (exc_class e) +:+ ": " +:+ exc_str e) false;
      Log DEBUG "Detail" true;
      CloseHandler (log_path request); RemoveHandler (log_path request)] /\
   res d = (if matches e (or_empty ignore_exc) then Return tt else Raise e) /\
   res (download_request request default_ignore_exc w) = Return tt /\
   res (download_request request None w) = Raise e) /\
  (isinstance e TemporaryResourceError = true ->
   events d
   = AddHandler (log_path request) :: events p ++
     [CloseHandler (log_path request); RemoveHandler (log_path request);
      Log INFO "Request temporary unavailable" false] /\
   res d = Return tt).
Proof.
  intros Hraise Hc p d. subst p d. split.
  - intros Hn.
    rewrite !(download_request_resource request _ w e Hraise Hc Hn).
    cbn [res final events]. repeat split.
    cbn [default_ignore_exc or_empty matches]. now rewrite Hc.
  - intros Ht. rewrite (download_request_temporary request _ w e Hraise Ht).
    cbn [res final events]. split; reflexivity.
Qed.

(** C9.  [__init__] of either signal class with a deadline that has no
    timezone raises [ValueError]; the world is as before and no event has
    happened, so no status has been touched. *)
Theorem C9_naive_deadline (cls : pyclass) (msg : string) (d : datetime)
    (w : World) :
  tzinfo d = None ->
  TemporaryResourceError_init cls msg (VDatetime d) w
  = mkRun (Request := Request) (Raise (mkExc ValueError "no timezone" None)) w []
  /\
  PartiallyCompleted_init cls msg (VDatetime d) w
  = mkRun (Request := Request) (Raise (mkExc ValueError "no timezone" None)) w [].
Proof.
  intros Htz.
  unfold TemporaryResourceError_init, PartiallyCompleted_init, bind, ret, raise.
  cbn. rewrite Htz. split; reflexivity.
Qed.

(** ** Every record the runner writes *)

Lemma well_marked_admitted st : well_marked (admitted st).
Proof. left. split; apply admitted_lookup. Qed.

Lemma well_marked_resolved st o : well_marked (resolved st o).
Proof. right. apply resolved_processing. Qed.

Lemma well_marked_sound st :
  well_marked st ->
  truthy (status_get st "finished") = true ->
  truthy (status_get st "processing") = false.
Proof.
  unfold status_get. intros [[Hp Hf] | Hp] Hfin.
  - rewrite Hf in Hfin. discriminate.
  - now rewrite Hp.
Qed.

Lemma process_request_well_marked request w :
  Forall well_marked (saved (events (_process_request request w))).
Proof.
  destruct (admission_cases request w) as [[e He] | Hok].
  - rewrite (process_request_rejected request w e He). constructor.
  - assert (Hadm : res (admission request w) = Return tt) by now rewrite Hok.
    rewrite (process_request_admitted request w Hadm). cbn [events].
    unfold saved, looked. cbn.
    constructor; [apply well_marked_admitted |].
    constructor; [apply well_marked_resolved |].
    constructor.
Qed.

Lemma download_requests_well_marked requests ignore_exc w :
  Forall well_marked
    (saved (events (download_requests requests ignore_exc w))).
Proof.
  revert w. induction requests as [| request rest IH]; intros w.
  - constructor.
  - cbn [download_requests]. unfold bind.
    pose proof (process_request_well_marked request w) as Hone.
    rewrite <- (download_request_saved request ignore_exc w) in Hone.
    destruct (download_request request ignore_exc w) as [[[] | e] w1 evs1];
      cbn [events] in Hone |- *; [| exact Hone].
    specialize (IH w1).
    destruct (download_requests rest ignore_exc w1) as [o w2 evs2].
    cbn [events] in IH |- *. rewrite saved_app. now apply Forall_app.
Qed.

(** The write of the first session, when there is one. *)
Lemma admission_saved request w :
  saved (events (admission request w)) = []
  \/ (res (admission request w) = Return tt /\
      saved (events (admission request w))
      = [admitted (_load_status w request)]).
Proof.
  destruct (admission_cases request w) as [[e He] | Hok].
  - left. now rewrite He.
  - right. rewrite Hok. split; reflexivity.
Qed.

(** The write of the last session. *)
Lemma execution_resolution_saved request w1 :
  saved (events (execution_resolution request w1))
  = [resolved (_load_status (_force_download request w1).2 request)
       (_force_download request w1).1].
Proof. now rewrite execution_resolution_run. Qed.

(** The writes of a run are those of its two phases. *)
Lemma process_request_saved_phases request w :
  saved (events (_process_request request w))
  = saved (events (admission request w)) ++
    match res (admission request w) with
    | Return _ =>
        saved (events (execution_resolution request
                         (final (admission request w))))
    | Raise _ => []
    end.
Proof.
  unfold _process_request, bind.
  destruct (admission request w) as [[[] | e] w1 evs1]; cbn [res final events].
  - destruct (execution_resolution request w1) as [o w2 evs2].
    cbn [events]. apply saved_app.
  - now rewrite app_nil_r.
Qed.

(** Every write made during the loop is the write of a first session or
    the write of a last session. *)
Lemma download_requests_saved_phases requests ignore_exc w :
  Forall (fun st =>
            (exists request' w', st ∈ saved (events (admission request' w')))
            \/ (exists request' w',
                  st ∈ saved (events (execution_resolution request' w'))))
    (saved (events (download_requests requests ignore_exc w))).
Proof.
  revert w. induction requests as [| request rest IH]; intros w.
  - constructor.
  - cbn [download_requests]. unfold bind.
    assert (Hone : Forall (fun st =>
              (exists request' w', st ∈ saved (events (admission request' w')))
              \/ (exists request' w',
                    st ∈ saved (events (execution_resolution request' w'))))
              (saved (events (download_request request ignore_exc w)))).
    { rewrite download_request_saved, process_request_saved_phases.
      apply Forall_app. split.
      - apply Forall_forall. intros st Hin. left. eauto.
      - destruct (res (admission request w)); [| constructor].
        apply Forall_forall. intros st Hin. right. eauto. }
    destruct (download_request request ignore_exc w) as [[[] | e] w1 evs1];
      cbn [events] in Hone |- *; [| exact Hone].
    specialize (IH w1).
    destruct (download_requests rest ignore_exc w1) as [o w2 evs2].
    cbn [events] in IH |- *. rewrite saved_app. now apply Forall_app.
Qed.

(** C10.  The status that the first session of [_process_request] saves
    has [processing] true together with [finished] false, and every status
    that the last session saves has [processing] false.  A run of
    [_process_request] writes nothing, or writes exactly these two records
    in this order, and every status saved during [download] is the write
    of a first session or of a last session.  Hence no saved record has
    [processing] and [finished] true together: in each of them [finished]
    true comes with [processing] false. *)
Theorem C10_saved_records request w args ignore_exc :
  (forall st,
     st ∈ saved (events (admission request w)) ->
     st !! "processing" = Some (VBool true) /\
     st !! "finished" = Some (VBool false)) /\
  (forall w1 st,
     st ∈ saved (events (execution_resolution request w1)) ->
     st !! "processing" = Some (VBool false)) /\
  (saved (events (_process_request request w)) = [] \/
   exists s1 s2,
     saved (events (_process_request request w)) = [s1; s2] /\
     saved (events (admission request w)) = [s1] /\
     saved (events (execution_resolution request
                      (final (admission request w)))) = [s2] /\
     s1 !! "processing" = Some (VBool true) /\
     s1 !! "finished" = Some (VBool false) /\
     s2 !! "processing" = Some (VBool false)) /\
  Forall (fun st =>
            (exists request' w', st ∈ saved (events (admission request' w')))
            \/ (exists request' w',
                  st ∈ saved (events (execution_resolution request' w'))))
    (saved (events (download args ignore_exc w))) /\
  Forall well_marked (saved (events (_process_request request w))) /\
  Forall well_marked (saved (events (download args ignore_exc w))) /\
  (forall st,
     st ∈ saved (events (_process_request request w)) ∨
     st ∈ saved (events (download args ignore_exc w)) ->
     truthy (status_get st "finished") = true ->
     truthy (status_get st "processing") = false).
Proof.
  pose proof (process_request_well_marked request w) as Hone.
  pose proof (download_requests_well_marked (as_requests args) ignore_exc w)
    as Hall.
  fold (download args ignore_exc) in Hall.
  split.
  { intros st Hin.
    destruct (admission_saved request w) as [Hnone | [_ Hsome]].
    - rewrite Hnone in Hin. now apply elem_of_nil in Hin.
    - rewrite Hsome in Hin. apply list_elem_of_singleton in Hin as ->.
      split; apply admitted_lookup. }
  split.
  { intros w1 st Hin. rewrite execution_resolution_saved in Hin.
    apply list_elem_of_singleton in Hin as ->. apply resolved_processing. }
  split.
  { rewrite process_request_saved_phases.
    destruct (admission_saved request w) as [Hnone | [Hres Hsome]].
    - left. rewrite Hnone.
      destruct (admission_cases request w) as [[e He] | Hok].
      + now rewrite He.
      + rewrite Hok in Hnone. discriminate.
    - right. rewrite Hres, Hsome, execution_resolution_saved.
      eexists. eexists. split; [reflexivity |]. split; [reflexivity |].
      split; [reflexivity |].
      split; [apply admitted_lookup |]. split; [apply admitted_lookup |].
      apply resolved_processing. }
  split; [apply (download_requests_saved_phases (as_requests args)) |].
  split; [exact Hone |]. split; [exact Hall |].
  intros st [Hin | Hin]; apply well_marked_sound.
  - rewrite Forall_forall in Hone. now apply Hone.
  - rewrite Forall_forall in Hall. now apply Hall.
Qed.

End Runner.

(** ** The concrete downloader *)

Section DemoRuns.
Import Demo.

(** The in-memory store gives back what was saved. *)
Lemma demo_store_law (request : string) (w0 : world) (st0 : status) :
  _load_status (_save_status w0 request st0) request = st0.
Proof. cbn. now rewrite lookup_insert_eq. Qed.

(** A status left in progress by an earlier run. *)
Lemma C8_already_processing_witness :
  let w := with_status "ok" {["processing" := VBool true]} fresh in
  res (_process_request "ok" w) = Raise (mkExc AlreadyProcessingError "" None) /\
  final (_process_request "ok" w) = w /\
  events (_process_request "ok" w)
  = [SessionEnter "ok"; Load "ok"; SessionExit "ok"] /\
  (forall request', Exec request' ∉ events (_process_request "ok" w)).
Proof.
  intros w.
  apply (C8_already_processing (Args := list string) "ok" w).
  vm_compute. reflexivity.
Defined.

(** A finished request, called three times. *)
Lemma C2_already_finished_witness :
  let w := with_status "ok" {["finished" := VBool true]} fresh in
  res (_process_request "ok" w) = Raise (mkExc AlreadyFinishedError "" None) /\
  res (process_repeatedly 3 "ok" w)
  = Return (replicate 3 (Raise (mkExc AlreadyFinishedError "" None))) /\
  final (process_repeatedly 3 "ok" w) = w.
Proof.
  intros w.
  destruct (C2_already_finished (Args := list string) "ok" w 3)
    as [(Hres & _ & _) (Hall & Hsame & _ & _)];
    [vm_compute; reflexivity | vm_compute; reflexivity |].
  auto.
Defined.

(** A deadline at 02:00:00 seen at 00:00:00.25, and again at 02:00:00. *)
Lemma C3_retry_deadline_witness :
  let w := with_status "ok" {["waiting_until" := VDatetime deadline]} fresh in
  let w' := mkWorld (db w) 7200000000 in
  (exists msg,
     res (_process_request "ok" w)
     = Raise (mkExc TemporaryResourceError msg (Some deadline))) /\
  final (_process_request "ok" w) = w /\
  saved (events (_process_request "ok" w)) = [] /\
  Exec "ok" ∈ events (_process_request "ok" w').
Proof.
  intros w w'.
  destruct (C3_retry_deadline (Args := list string) "ok" w deadline 0)
    as (Hres & Hsame & _ & Hsaved & Hnext);
    [vm_compute; reflexivity | vm_compute; reflexivity | vm_compute; reflexivity
    | reflexivity | vm_compute; reflexivity |].
  destruct (Hnext w') as [_ Hexec];
    [vm_compute; reflexivity | vm_compute; discriminate |].
  auto.
Defined.

(** Work that raises a [ValueError], on a fresh store. *)
Lemma C1_cleanup_witness :
  exists st,
    last (saved (events (_process_request "bug" fresh))) = Some st /\
    st !! "processing" = Some (VBool false) /\
    _load_status (final (_process_request "bug" fresh)) "bug" = st.
Proof.
  destruct (C1_cleanup (Args := list string) "bug" fresh)
    as (st & evs & _ & _ & Hlast & Hproc & Hstore);
    [vm_compute; reflexivity |].
  exists st. split; [exact Hlast |]. split; [exact Hproc |].
  apply Hstore. apply demo_store_law.
Defined.


(** Work that raises a [TemporaryResourceError], and work that raises a
    plain [ResourceError]. *)
Lemma C6_resource_errors_witness :
  (exists st,
     res (_process_request "temporary" fresh)
     = Raise (mkExc TemporaryResourceError "busy" (Some deadline)) /\
     last (saved (events (_process_request "temporary" fresh))) = Some st /\
     st !! "failed" = Some (VBool true) /\
     st !! "waiting_until" = Some (VDatetime deadline) /\
     st !! "finished" = Some (VBool false)) /\
  (exists st,
     res (_process_request "gone" fresh) = Raise (mkExc ResourceError "404" None) /\
     last (saved (events (_process_request "gone" fresh))) = Some st /\
     st !! "finished" = Some (VBool true) /\
     st !! "failed" = Some (VBool true) /\
     st !! "processing" = Some (VBool false)).
Proof.
  split.
  - destruct (C6_resource_errors (Args := list string) "temporary" fresh
                (mkExc TemporaryResourceError "busy" (Some deadline))
                (final (admission "temporary" fresh)))
      as [Htemp _]; [vm_compute; reflexivity | vm_compute; reflexivity |].
    destruct (Htemp deadline)
      as (Hres & st & Hlast & _ & Hfail & Hwait & _ & _ & Hfin);
      [vm_compute; reflexivity | reflexivity |].
    exists st. repeat split; try assumption.
    apply Hfin; [apply demo_store_law | reflexivity].
  - destruct (C6_resource_errors (Args := list string) "gone" fresh
                (mkExc ResourceError "404" None)
                (final (admission "gone" fresh)))
      as [_ Hhard]; [vm_compute; reflexivity | vm_compute; reflexivity |].
    destruct Hhard as (Hres & st & Hlast & _ & Hfin & Hfail & Hproc);
      [vm_compute; reflexivity | vm_compute; reflexivity |].
    exists st. auto.
Defined.

(** Work that raises a [ValueError], under the default [ignore_exc]. *)
Lemma C7_unexpected_exception_witness :
  let e := mkExc ValueError "bad input" None in
  res (_process_request "bug" fresh) = Raise e /\
  List.filter is_log (events (download_request "bug" default_ignore_exc fresh))
  = [Log ERROR "bad input" true] /\
  res (download_request "bug" default_ignore_exc fresh) = Raise e.
Proof.
  intros e.
  destruct (C7_unexpected_exception (Args := list string) "bug" fresh e
              (final (admission "bug" fresh)) default_ignore_exc)
    as [[Hres _] Hdriver];
    [ vm_compute; reflexivity | vm_compute; reflexivity
    | vm_compute; reflexivity | vm_compute; reflexivity |].
  destruct Hdriver as (Hlog & _ & _ & Hraise);
    [vm_compute; reflexivity | vm_compute; reflexivity |].
  auto.
Defined.

(** A [ResourceError] of a class of the user, and a
    [TemporaryResourceError], both with [ignore_exc=None]. *)
Lemma C4_resource_error_logging_witness :
  let e := mkExc (UserClass "Forbidden" ResourceError) "403" None in
  (List.filter is_log (events (download_request "forbidden" None fresh))
   = [Log WARNING "Forbidden: 403" false; Log DEBUG "Detail" true] /\
   res (download_request "forbidden" None fresh) = Raise e /\
   res (download_request "forbidden" default_ignore_exc fresh) = Return tt) /\
  res (download_request "temporary" None fresh) = Return tt.
Proof.
  intros e. split.
  - destruct (C4_resource_error_logging (Args := list string) "forbidden" fresh e
                None) as [Hhard _];
      [vm_compute; reflexivity | vm_compute; reflexivity |].
    destruct Hhard as (Hev & _ & Hdefault & Hnone); [vm_compute; reflexivity |].
    split; [| split; assumption].
    rewrite Hev. vm_compute. reflexivity.
  - destruct (C4_resource_error_logging (Args := list string) "temporary" fresh
                (mkExc TemporaryResourceError "busy" (Some deadline)) None)
      as [_ Htemp]; [vm_compute; reflexivity | vm_compute; reflexivity |].
    destruct Htemp as [_ Hres]; [vm_compute; reflexivity |].
    exact Hres.
Defined.

(** Work that builds its signal with a deadline without timezone never
    gets to raise the signal: the runner sees the [ValueError], and the
    status it saves has no [waiting_until]. *)
Example naive_deadline_in_work :
  res (_process_request "naive" fresh)
  = Raise (mkExc ValueError "no timezone" None) /\
  _load_status (final (_process_request "naive" fresh)) "naive"
  = <["processing" := VBool false]>
      (<["failed" := VBool true]> (admitted ∅)).
Proof. vm_compute. split; reflexivity. Qed.

(** A deadline without timezone. *)
Lemma C9_naive_deadline_witness :
  TemporaryResourceError_init TemporaryResourceError "busy"
    (VDatetime naive_deadline) fresh
  = mkRun (Request := string) (Raise (mkExc ValueError "no timezone" None))
      fresh [] /\
  PartiallyCompleted_init PartiallyCompleted "half done"
    (VDatetime naive_deadline) fresh
  = mkRun (Request := string) (Raise (mkExc ValueError "no timezone" None))
      fresh [].
Proof.
  split.
  - apply (C9_naive_deadline (Request := string) TemporaryResourceError "busy"
             naive_deadline fresh).
    reflexivity.
  - apply (C9_naive_deadline (Request := string) PartiallyCompleted "half done"
             naive_deadline fresh).
    reflexivity.
Defined.

(** The two records of a run whose work raised a [ResourceError], among
    the records of a run of the driver over two requests. *)
Lemma C10_saved_records_witness :
  let s1 := admitted ∅ in
  let s2 := <["processing" := VBool false]>
              (<["failed" := VBool true]>
                 (<["finished" := VBool true]> (admitted ∅))) in
  (s1 !! "processing" = Some (VBool true) /\
   s1 !! "finished" = Some (VBool false)) /\
  s2 !! "processing" = Some (VBool false) /\
  s1 ∈ saved (events (admission "gone" fresh)) /\
  s2 ∈ saved (events (_process_request "gone" fresh)) /\
  Forall well_marked
    (saved (events (download ["gone"; "ok"] default_ignore_exc fresh))) /\
  truthy (status_get s2 "finished") = true /\
  truthy (status_get s2 "processing") = false.
Proof.
  intros s1 s2.
  destruct (C10_saved_records "gone" fresh ["gone"; "ok"] default_ignore_exc)
    as (Hfirst & Hlast & _ & _ & _ & Hall & Hsound).
  assert (Hin1 : s1 ∈ saved (events (admission "gone" fresh))).
  { apply (bool_decide_unpack _); vm_compute; exact I. }
  assert (Hin2 : s2 ∈ saved (events (execution_resolution "gone"
                                       (final (admission "gone" fresh))))).
  { apply (bool_decide_unpack _); vm_compute; exact I. }
  assert (Hin : s2 ∈ saved (events (_process_request "gone" fresh))).
  { apply (bool_decide_unpack _); vm_compute; exact I. }
  split; [exact (Hfirst s1 Hin1) |].
  split; [exact (Hlast _ s2 Hin2) |].
  split; [exact Hin1 |]. split; [exact Hin |].
  split; [exact Hall |].
  split; [vm_compute; reflexivity |].
  apply Hsound; [left; exact Hin | vm_compute; reflexivity].
Defined.

(** C4 as stated fails.  The work raises a [TemporaryResourceError], which
    is a [ResourceError], and [ignore_exc] is [None], so that no class is
    to be suppressed: the driver logs one record at level [INFO], no
    summary at level [WARNING] and no detail at level [DEBUG], and does not
    raise the error again. *)
Lemma C4_counterexample :
  let e := mkExc TemporaryResourceError "busy" (Some deadline) in
  let d := download_request "temporary" None fresh in
  res (_process_request "temporary" fresh) = Raise e /\
  isinstance e ResourceError = true /\
  matches e (or_empty None) = false /\
  List.filter is_log (events d)
  = [Log INFO "Request temporary unavailable" false] /\
  res d = Return tt /\
  res d <> Raise e.
Proof. vm_compute. repeat split; discriminate. Qed.

(** C7 as stated fails.  First, the work raises a [ValueError] and
    [ignore_exc] is [Exception]: the driver logs the error and then
    suppresses it.  Second, the work raises an [AlreadyFinishedError],
    which is none of the three recognised signals, under the default
    [ignore_exc]: the driver logs one record at level [INFO] and
    suppresses it. *)
Lemma C7_counterexample :
  (let e := mkExc ValueError "bad input" None in
   let d := download_request "bug" (Some (OneClass Exception)) fresh in
   res (admission "bug" fresh) = Return tt /\
   (_force_download "bug" (final (admission "bug" fresh))).1 = Raise e /\
   isinstance e PartiallyCompleted = false /\
   isinstance e TemporaryResourceError = false /\
   isinstance e ResourceError = false /\
   List.filter is_log (events d) = [Log ERROR "bad input" true] /\
   res d = Return tt /\
   res d <> Raise e) /\
  (let e := mkExc AlreadyFinishedError "" None in
   let d := download_request "skip" default_ignore_exc fresh in
   res (admission "skip" fresh) = Return tt /\
   (_force_download "skip" (final (admission "skip" fresh))).1 = Raise e /\
   isinstance e PartiallyCompleted = false /\
   isinstance e TemporaryResourceError = false /\
   isinstance e ResourceError = false /\
   List.filter is_log (events d) = [Log INFO "Already finished" false] /\
   res d = Return tt /\
   res d <> Raise e).
Proof. vm_compute. repeat split; discriminate. Qed.

End DemoRuns.

(** * Further properties of the module *)

Section Coverage.
Context {Args Request World : Type} `{Host World}
        `{BaseDownloader Args Request World}.

(** ** The two [__init__] methods *)

(** X1.  Without [try_again_later], or with any false value for it, both
    [__init__] methods take the current time of the clock, in UTC, as the
    deadline; they return the instance and touch nothing. *)
Theorem init_without_deadline (cls : pyclass) (msg : string) (v : value)
    (w : World) :
  truthy v = false ->
  let now := mkDatetime (clock_us w) (Some 0) in
  TemporaryResourceError_init cls msg v w
  = mkRun (Request := Request) (Return (mkExc cls msg (Some now))) w [] /\
  PartiallyCompleted_init cls msg v w
  = mkRun (Request := Request) (Return (mkExc cls msg (Some now))) w [].
Proof.
  intros Hv now.
  unfold TemporaryResourceError_init, PartiallyCompleted_init, utcnow, bind,
    ask, ret.
  rewrite Hv. split; reflexivity.
Qed.

(** X2.  Whatever is passed as [try_again_later], an instance that
    [__init__] returns has the class and message asked for and a
    [waiting_until] that carries a timezone. *)
Theorem init_instance_has_timezone (cls : pyclass) (msg : string) (v : value)
    (w : World) (e : exception) :
  res (TemporaryResourceError_init (Request := Request) cls msg v w) = Return e
  \/ res (PartiallyCompleted_init (Request := Request) cls msg v w) = Return e ->
  exc_class e = cls /\ exc_str e = msg /\
  exists d off, exc_waiting_until e = Some d /\ tzinfo d = Some off.
Proof.
  unfold TemporaryResourceError_init, PartiallyCompleted_init, utcnow, bind,
    ask, ret, raise.
  destruct (truthy v) eqn:Hv.
  - destruct v as [| b | z | s | d]; cbn; try (intros [Hr | Hr]; discriminate).
    destruct (tzinfo d) as [off |] eqn:Htz; cbn;
      [| intros [Hr | Hr]; discriminate].
    intros [[= <-] | [= <-]]; cbn; eauto 6.
  - cbn. intros [[= <-] | [= <-]]; cbn; eauto 6.
Qed.

(** X3.  A true value that is not a timestamp has no [tzinfo]: both
    methods raise [AttributeError], not [ValueError], and touch nothing. *)
Theorem init_rejects_other_values (cls : pyclass) (msg : string) (v : value)
    (w : World) :
  truthy v = true ->
  (forall d, v <> VDatetime d) ->
  exists what,
    TemporaryResourceError_init cls msg v w
    = mkRun (Request := Request) (Raise (mkExc AttributeError what None)) w []
    /\
    PartiallyCompleted_init cls msg v w
    = mkRun (Request := Request) (Raise (mkExc AttributeError what None)) w [].
Proof.
  intros Hv Hnd. exists "tzinfo".
  unfold TemporaryResourceError_init, PartiallyCompleted_init, bind, ret, raise.
  rewrite Hv.
  destruct v as [| b | z | s | d]; cbn; try (split; reflexivity).
  now destruct (Hnd d).
Qed.

(** ** The first session *)

Ltac unfold_runner :=
  unfold _process_request, execution_resolution, admission, with_session,
    load_status, save_status, force_download, getitem,
    TemporaryResourceError_init, gt_datetime, try_finally, bind, emit, ask,
    modify, raise, ret, utcnow, attempt, of_result, status_get_default.

(** The boundary lies after the clock, by one second at most. *)
Lemma grace_boundary_bounds now_us :
  now_us < grace_boundary_us now_us <= now_us + 1000000.
Proof.
  unfold grace_boundary_us.
  pose proof (Z.mod_eq now_us 1000000).
  pose proof (Z.mod_pos_bound now_us 1000000). lia.
Qed.

(** A later clock gives a boundary that is not earlier. *)
Lemma grace_boundary_mono a b :
  a <= b -> grace_boundary_us a <= grace_boundary_us b.
Proof.
  intros Hab. unfold grace_boundary_us.
  pose proof (Z.div_le_mono a b 1000000). lia.
Qed.

(** A stored deadline that the comparison of line 90 cannot take. *)
Lemma admission_incomparable request w v :
  truthy (status_get (_load_status w request) "processing") = false ->
  truthy (status_get (_load_status w request) "finished") = false ->
  _load_status w request !! "waiting_until" = Some v ->
  (forall d, v = VDatetime d -> tzinfo d = None) ->
  exists msg,
    admission request w
    = mkRun (Raise (mkExc TypeError msg None)) w (looked request).
Proof.
  intros Hp Hf Hw Hbad.
  destruct v as [| b | z | s | d];
    try (eexists; unfold_runner; cbn; rewrite Hp, Hf, Hw; reflexivity).
  eexists. unfold_runner. cbn. rewrite Hp, Hf, Hw. cbn.
  rewrite datetime_gt_naive by now apply Hbad. reflexivity.
Qed.

(** What the status and the clock are like when the first session lets
    the request through. *)
Lemma admission_returns_inv request w :
  res (admission request w) = Return tt ->
  truthy (status_get (_load_status w request) "processing") = false /\
  truthy (status_get (_load_status w request) "finished") = false /\
  (_load_status w request !! "waiting_until" = None \/
   exists d off,
     _load_status w request !! "waiting_until" = Some (VDatetime d) /\
     tzinfo d = Some off /\
     wall_us d - off <= grace_boundary_us (clock_us w)).
Proof.
  intros Hres.
  destruct (truthy (status_get (_load_status w request) "processing")) eqn:Hp.
  { rewrite (admission_processing request w Hp) in Hres. discriminate. }
  destruct (truthy (status_get (_load_status w request) "finished")) eqn:Hf.
  { rewrite (admission_finished request w Hp Hf) in Hres. discriminate. }
  split; [reflexivity |]. split; [reflexivity |].
  destruct (_load_status w request !! "waiting_until") as [v |] eqn:Hw;
    [| now left].
  right.
  assert (Hcmp : (forall d, v = VDatetime d -> tzinfo d = None) -> False).
  { intros Hbad.
    destruct (admission_incomparable request w v Hp Hf Hw Hbad) as [msg He].
    rewrite He in Hres. discriminate. }
  destruct v as [| b | z | s | d]; try (exfalso; apply Hcmp; discriminate).
  destruct (tzinfo d) as [off |] eqn:Htz.
  2: { exfalso. apply Hcmp. now intros ? [= <-]. }
  exists d, off. split; [reflexivity |]. split; [exact Htz |].
  destruct (Z.lt_ge_cases (grace_boundary_us (clock_us w)) (wall_us d - off))
    as [Hlate | Hdue]; [| exact Hdue].
  rewrite (admission_waiting request w d off Hp Hf Hw Htz Hlate) in Hres.
  discriminate.
Qed.

(** X4.  A status with [processing] and [finished] false and no
    [waiting_until] key is let through whatever the clock shows: the
    request is claimed and the work is called. *)
Theorem admission_without_deadline request w :
  truthy (status_get (_load_status w request) "processing") = false ->
  truthy (status_get (_load_status w request) "finished") = false ->
  _load_status w request !! "waiting_until" = None ->
  let r := _process_request request w in
  res (admission request w) = Return tt /\
  Exec request ∈ events r /\
  head (saved (events r)) = Some (admitted (_load_status w request)).
Proof.
  intros Hp Hf Hw r.
  assert (Hadm : res (admission request w) = Return tt)
    by now rewrite (admission_unrestricted request w Hp Hf Hw).
  split; [exact Hadm |]. subst r.
  rewrite (process_request_admitted request w Hadm). cbn [events].
  split; [| reflexivity].
  rewrite !elem_of_app, !elem_of_cons. tauto.
Qed.

(** X5.  A stored [waiting_until] that is not a timestamp, or is one
    without timezone, makes the comparison of line 90 fail:
    [_process_request] raises [TypeError] out of the first session; the
    work is not called, nothing is written, and the request stays as it
    is for every later call. *)
Theorem admission_bad_deadline request w v :
  truthy (status_get (_load_status w request) "processing") = false ->
  truthy (status_get (_load_status w request) "finished") = false ->
  _load_status w request !! "waiting_until" = Some v ->
  (forall d, v = VDatetime d -> tzinfo d = None) ->
  exists msg,
    _process_request request w
    = mkRun (Raise (mkExc TypeError msg None)) w
        [SessionEnter request; Load request; SessionExit request].
Proof.
  intros Hp Hf Hw Hbad.
  destruct (admission_incomparable request w v Hp Hf Hw Hbad) as [msg He].
  exists msg. now apply process_request_rejected.
Qed.

(** X6.  The grace window.  A deadline that the clock has reached is
    always let through, and a deadline more than one second after the
    clock is always turned away; only in between does the answer depend
    on the fraction of the second that the clock shows. *)
Theorem grace_window request w d off :
  truthy (status_get (_load_status w request) "processing") = false ->
  truthy (status_get (_load_status w request) "finished") = false ->
  _load_status w request !! "waiting_until" = Some (VDatetime d) ->
  tzinfo d = Some off ->
  (wall_us d - off <= clock_us w ->
   res (admission request w) = Return tt) /\
  (clock_us w + 1000000 < wall_us d - off ->
   exists msg,
     res (admission request w)
     = Raise (mkExc TemporaryResourceError msg (Some d))) /\
  (res (admission request w) = Return tt ->
   wall_us d - off <= clock_us w + 1000000).
Proof.
  intros Hp Hf Hw Htz.
  pose proof (grace_boundary_bounds (clock_us w)) as Hb.
  split; [| split].
  - intros Hdue.
    rewrite (admission_due request w d off Hp Hf Hw Htz) by lia. reflexivity.
  - intros Hlate.
    rewrite (admission_waiting request w d off Hp Hf Hw Htz) by lia.
    cbn [res]. eauto.
  - intros Hres.
    destruct (admission_returns_inv request w Hres) as (_ & _ & [Hnone | Hsome]).
    + rewrite Hw in Hnone. discriminate.
    + destruct Hsome as (d' & off' & Hw' & Htz' & Hdue).
      rewrite Hw in Hw'. injection Hw' as <-.
      rewrite Htz in Htz'. injection Htz' as <-. lia.
Qed.

(** ** One call of the runner *)

(** The two shapes of a run of [_process_request]. *)
Lemma process_request_shapes request w :
  (exists e, _process_request request w = mkRun (Raise e) w (looked request))
  \/ (res (admission request w) = Return tt /\
      exists s2,
        events (_process_request request w)
        = [SessionEnter request; Load request;
           Save request (admitted (_load_status w request));
           SessionExit request; Exec request] ++ looked request ++
          [SessionEnter request; Save request s2; SessionExit request]).
Proof.
  destruct (admission_cases request w) as [[e He] | Hok].
  - left. exists e. now apply process_request_rejected.
  - right. assert (Hadm : res (admission request w) = Return tt)
      by now rewrite Hok.
    split; [exact Hadm |].
    rewrite (process_request_admitted request w Hadm). cbn [events]. eauto.
Qed.

(** X7.  The work returns: the runner returns, and the status it saves
    last is the reloaded one with [finished] set to [True] and
    [processing] to [False]; [failed] and a [waiting_until] left by an
    earlier attempt stay as reloaded.  With a store that gives back what
    was saved and work that leaves the record alone, [failed] is the
    [False] of the first session. *)
Theorem success_marks_finished request w w2 :
  res (admission request w) = Return tt ->
  _force_download request (final (admission request w)) = (Return tt, w2) ->
  let r := _process_request request w in
  let reloaded := _load_status w2 request in
  res r = Return tt /\
  exists st,
    last (saved (events r)) = Some st /\
    final r = _save_status w2 request st /\
    st = <["processing" := VBool false]> (<["finished" := VBool true]> reloaded) /\
    st !! "finished" = Some (VBool true) /\
    st !! "processing" = Some (VBool false) /\
    st !! "failed" = reloaded !! "failed" /\
    st !! "waiting_until" = reloaded !! "waiting_until" /\
    ((forall w0 st0,
        _load_status (_save_status w0 request st0) request = st0) ->
     _load_status w2 request
     = _load_status (final (admission request w)) request ->
     st !! "failed" = Some (VBool false) /\
     _load_status (final r) request = st).
Proof.
  intros Hadm Hwork r reloaded. subst r reloaded.
  rewrite (process_request_worked request w _ _ Hadm Hwork).
  unfold resolved. rewrite resolve_returned. cbn [fst snd res final events].
  split; [reflexivity |]. eexists.
  split; [reflexivity |]. split; [reflexivity |]. split; [reflexivity |].
  do 4 (split; [now simplify_map_eq |]).
  intros Hstore Hframe. split; [| apply Hstore].
  rewrite !lookup_insert_ne by discriminate.
  rewrite (reloaded_admitted _ _ _ _ Hadm Hwork Hstore Hframe).
  apply admitted_lookup.
Qed.

(** The clauses of the runner assign to four keys only. *)
Lemma resolved_other_key st o (k : string) :
  k <> "processing" -> k <> "finished" -> k <> "failed" ->
  k <> "waiting_until" ->
  resolved st o !! k = st !! k.
Proof.
  intros Hp Hf Hl Hw. unfold resolved, resolve.
  destruct o as [[] | e]; [now simplify_map_eq |].
  destruct (isinstance e PartiallyCompleted).
  { destruct (exc_waiting_until e); now simplify_map_eq. }
  destruct (isinstance e TemporaryResourceError).
  { destruct (exc_waiting_until e); now simplify_map_eq. }
  destruct (isinstance e ResourceError); [now simplify_map_eq |].
  destruct (isinstance e BaseException); now simplify_map_eq.
Qed.

Lemma admitted_other_key st (k : string) :
  k <> "processing" -> k <> "finished" -> k <> "failed" ->
  admitted st !! k = st !! k.
Proof. intros Hp Hf Hl. unfold admitted. now simplify_map_eq. Qed.

(** X8.  The runner assigns to the keys [processing], [finished],
    [failed] and [waiting_until] only: under any other key, the status
    written by the first session holds what was loaded, and the status
    written by the last session holds what was reloaded after the work,
    whatever the work ended with. *)
Theorem other_keys_kept request w (k : string) :
  k <> "processing" -> k <> "finished" -> k <> "failed" ->
  k <> "waiting_until" ->
  res (admission request w) = Return tt ->
  let w2 := (_force_download request (final (admission request w))).2 in
  exists s1 s2,
    saved (events (_process_request request w)) = [s1; s2] /\
    s1 !! k = _load_status w request !! k /\
    s2 !! k = _load_status w2 request !! k.
Proof.
  intros Hp Hf Hl Hw Hadm w2. subst w2.
  destruct (_force_download request (final (admission request w)))
    as [o w2] eqn:Hwork.
  rewrite (process_request_worked request w o w2 Hadm Hwork). cbn [events snd].
  eexists. eexists. split; [reflexivity |]. split.
  - now apply admitted_other_key.
  - now apply resolved_other_key.
Qed.

(** X9.  One call of the runner calls the work at most once: either the
    request is turned away, and there is no call of the work and no
    write, or the work is called exactly once, between exactly two
    writes. *)
Theorem work_called_at_most_once request w :
  let evs := events (_process_request request w) in
  (List.filter is_exec evs = [] /\ saved evs = [] /\
   final (_process_request request w) = w)
  \/ (List.filter is_exec evs = [Exec request] /\
      exists s1 s2 before after,
        saved evs = [s1; s2] /\
        evs = before ++ Exec request :: after /\
        saved before = [s1] /\ saved after = [s2]).
Proof.
  intros evs. subst evs.
  destruct (process_request_shapes request w) as [[e He] | (_ & s2 & Hev)].
  - left. rewrite He. cbn [events final]. auto.
  - right. rewrite Hev. split; [reflexivity |].
    exists (admitted (_load_status w request)), s2,
      [SessionEnter request; Load request;
       Save request (admitted (_load_status w request)); SessionExit request],
      (looked request ++
       [SessionEnter request; Save request s2; SessionExit request]).
    repeat split.
Qed.

Lemma process_request_own_events request w :
  Forall (fun ev => event_request ev = Some request)
    (events (_process_request request w)).
Proof.
  destruct (process_request_shapes request w) as [[e He] | (_ & s2 & Hev)].
  - rewrite He. cbn [events]. unfold looked. repeat constructor.
  - rewrite Hev. unfold looked. cbn [app]. repeat constructor.
Qed.

(** X10.  Every session, load, save and call of the work in a run of
    the runner is for the request it was called with; the runner itself
    logs nothing and touches no log handler. *)
Theorem only_own_request request w :
  Forall (fun ev => event_request ev = Some request)
    (events (_process_request request w)) /\
  List.filter is_log (events (_process_request request w)) = [] /\
  List.filter is_handler (events (_process_request request w)) = [].
Proof.
  split; [apply process_request_own_events |].
  destruct (process_request_shapes request w) as [[e He] | (_ & s2 & Hev)].
  - rewrite He. split; reflexivity.
  - rewrite Hev. split; reflexivity.
Qed.

(** ** One call after another *)

(** What a store that gives back what was saved shows after a run that
    called the work. *)
Lemma status_after_run request w o w2 :
  (forall w0 st0, _load_status (_save_status w0 request st0) request = st0) ->
  res (admission request w) = Return tt ->
  _force_download request (final (admission request w)) = (o, w2) ->
  _load_status (final (_process_request request w)) request
  = resolved (_load_status w2 request) o.
Proof.
  intros Hstore Hadm Hwork.
  rewrite (process_request_worked request w o w2 Hadm Hwork). cbn [final].
  apply Hstore.
Qed.

(** X11.  A request whose work returned, or raised a [ResourceError]
    that is not a [TemporaryResourceError], is never attempted again: on
    a store that gives back what was saved, every later call that finds
    the record as the run left it raises [AlreadyFinishedError] out of
    the first session, without calling the work and without a write. *)
Theorem no_retry_after_finish request w o w2 w' :
  (forall w0 st0, _load_status (_save_status w0 request st0) request = st0) ->
  res (admission request w) = Return tt ->
  _force_download request (final (admission request w)) = (o, w2) ->
  (o = Return tt \/
   exists e, o = Raise e /\ isinstance e ResourceError = true /\
             isinstance e TemporaryResourceError = false) ->
  _load_status w' request
  = _load_status (final (_process_request request w)) request ->
  _process_request request w'
  = mkRun (Raise (mkExc AlreadyFinishedError "" None)) w'
      [SessionEnter request; Load request; SessionExit request].
Proof.
  intros Hstore Hadm Hwork Hkind Hsame.
  rewrite (status_after_run request w o w2 Hstore Hadm Hwork) in Hsame.
  apply process_request_rejected. apply admission_finished; rewrite Hsame.
  - unfold status_get. now rewrite resolved_processing.
  - unfold status_get, resolved.
    destruct Hkind as [-> | (e & -> & Hc & Hn)].
    + rewrite resolve_returned. now simplify_map_eq.
    + rewrite (resolve_resource _ e Hc Hn). now simplify_map_eq.
Qed.

(** X12.  A request whose work raised an unexpected exception (neither
    [PartiallyCompleted] nor a [ResourceError]) is attempted again by the
    next call: on a store that gives back what was saved, with work that
    left the record alone, a later call that finds the record as the run
    left it, at a clock that has not gone back, claims the request,
    writes [failed] = [False] and calls the work. *)
Theorem retry_after_unexpected_failure request w e w2 w' :
  (forall w0 st0, _load_status (_save_status w0 request st0) request = st0) ->
  res (admission request w) = Return tt ->
  _force_download request (final (admission request w)) = (Raise e, w2) ->
  _load_status w2 request = _load_status (final (admission request w)) request ->
  isinstance e PartiallyCompleted = false ->
  isinstance e ResourceError = false ->
  _load_status w' request
  = _load_status (final (_process_request request w)) request ->
  clock_us w <= clock_us w' ->
  let r' := _process_request request w' in
  _load_status w' request !! "failed" = Some (VBool true) /\
  res (admission request w') = Return tt /\
  Exec request ∈ events r' /\
  exists s1, head (saved (events r')) = Some s1 /\
             s1 !! "failed" = Some (VBool false) /\
             s1 !! "processing" = Some (VBool true).
Proof.
  intros Hstore Hadm Hwork Hframe Hp Hr Hsame Hclock r'.
  rewrite (status_after_run request w _ w2 Hstore Hadm Hwork) in Hsame.
  unfold resolved in Hsame. rewrite (resolve_other _ e Hp Hr) in Hsame.
  cbn [fst] in Hsame.
  rewrite (reloaded_admitted _ _ _ _ Hadm Hwork Hstore Hframe) in Hsame.
  destruct (admitted_lookup (_load_status w request)) as (_ & Hfin & _).
  assert (Hproc' :
    truthy (status_get (_load_status w' request) "processing") = false).
  { unfold status_get. rewrite Hsame. now simplify_map_eq. }
  assert (Hfin' :
    truthy (status_get (_load_status w' request) "finished") = false).
  { unfold status_get. rewrite Hsame.
    rewrite !lookup_insert_ne by discriminate. now rewrite Hfin. }
  assert (Hwait : _load_status w' request !! "waiting_until"
                  = _load_status w request !! "waiting_until").
  { rewrite Hsame. unfold admitted. now rewrite !lookup_insert_ne by discriminate. }
  assert (Hadm' : res (admission request w') = Return tt).
  { destruct (admission_returns_inv request w Hadm)
      as (_ & _ & [Hnone | (d & off & Hsome & Htz & Hdue)]).
    - rewrite (admission_unrestricted request w' Hproc' Hfin')
        by now rewrite Hwait.
      reflexivity.
    - rewrite (admission_due request w' d off Hproc' Hfin').
      + reflexivity.
      + now rewrite Hwait.
      + exact Htz.
      + pose proof (grace_boundary_mono _ _ Hclock). lia. }
  split; [rewrite Hsame; now simplify_map_eq |].
  split; [exact Hadm' |]. subst r'.
  rewrite (process_request_admitted request w' Hadm'). cbn [events].
  split; [rewrite !elem_of_app, !elem_of_cons; tauto |].
  eexists. split; [reflexivity |]. split; apply admitted_lookup.
Qed.

(** X13.  After work that raised [PartiallyCompleted] or a
    [TemporaryResourceError] with a deadline that carries its timezone,
    on a store that gives back what was saved and with work that left
    the record alone: a later call that finds the record as the run left
    it is turned away with a [TemporaryResourceError] carrying that
    deadline, without calling the work, as long as the deadline lies
    beyond the grace boundary of its clock; once it does not, the call
    is let through. *)
Theorem deadline_enforced_after_signal request w e t off w2 w' :
  (forall w0 st0, _load_status (_save_status w0 request st0) request = st0) ->
  res (admission request w) = Return tt ->
  _force_download request (final (admission request w)) = (Raise e, w2) ->
  _load_status w2 request = _load_status (final (admission request w)) request ->
  isinstance e PartiallyCompleted = true
  \/ isinstance e TemporaryResourceError = true ->
  exc_waiting_until e = Some t ->
  tzinfo t = Some off ->
  _load_status w' request
  = _load_status (final (_process_request request w)) request ->
  (grace_boundary_us (clock_us w') < wall_us t - off ->
   exists msg,
     _process_request request w'
     = mkRun (Raise (mkExc TemporaryResourceError msg (Some t))) w'
         [SessionEnter request; Load request; SessionExit request]) /\
  (wall_us t - off <= grace_boundary_us (clock_us w') ->
   res (admission request w') = Return tt /\
   Exec request ∈ events (_process_request request w')).
Proof.
  intros Hstore Hadm Hwork Hframe Hkind Ht Htz Hsame.
  rewrite (status_after_run request w _ w2 Hstore Hadm Hwork) in Hsame.
  rewrite (reloaded_admitted _ _ _ _ Hadm Hwork Hstore Hframe) in Hsame.
  destruct (admitted_lookup (_load_status w request)) as (_ & Hfin & _).
  assert (Hst : _load_status w' request !! "processing" = Some (VBool false) /\
                _load_status w' request !! "finished" = Some (VBool false) /\
                _load_status w' request !! "waiting_until"
                = Some (VDatetime t)).
  { rewrite Hsame. unfold resolved.
    destruct Hkind as [Hc | Hc];
      [rewrite (resolve_partial _ e t Hc Ht)
      | rewrite (resolve_temporary _ e t Hc Ht)];
      cbn [fst]; repeat split; try (now simplify_map_eq);
      rewrite !lookup_insert_ne by discriminate; exact Hfin. }
  destruct Hst as (Hproc & Hfinished & Hwait).
  assert (Hproc' :
    truthy (status_get (_load_status w' request) "processing") = false)
    by (unfold status_get; now rewrite Hproc).
  assert (Hfin' :
    truthy (status_get (_load_status w' request) "finished") = false)
    by (unfold status_get; now rewrite Hfinished).
  split.
  - intros Hlate. eexists. apply process_request_rejected.
    now apply (admission_waiting request w' t off).
  - intros Hdue.
    assert (Hadm' : res (admission request w') = Return tt)
      by now rewrite (admission_due request w' t off Hproc' Hfin' Hwait Htz Hdue).
    split; [exact Hadm' |].
    rewrite (process_request_admitted request w' Hadm'). cbn [events].
    rewrite !elem_of_app, !elem_of_cons. tauto.
Qed.

(** ** The driver *)

Ltac unfold_loop_body :=
  unfold download_request, try_except, try_except_else, try_finally, log,
    bind, attempt, emit, raise, ret.

Lemma added_app {R} (evs1 evs2 : list (event R)) :
  added (evs1 ++ evs2) = added evs1 ++ added evs2.
Proof. unfold added. apply omap_app. Qed.

Lemma session_walk_app {R} (evs1 evs2 : list (event R)) inside :
  session_walk inside (evs1 ++ evs2)
  = match session_walk inside evs1 with
    | Some inside' => session_walk inside' evs2
    | None => None
    end.
Proof.
  revert inside. induction evs1 as [| ev evs1 IH]; intros inside;
    [reflexivity |].
  cbn [app session_walk]. destruct ev, inside; auto.
Qed.

(** Events that are about no request change nothing for the sessions. *)
Lemma session_walk_neutral {R} (evs : list (event R)) inside :
  Forall (fun ev => event_request ev = None) evs ->
  session_walk inside evs = Some inside.
Proof.
  induction 1 as [| ev evs Hev _ IH]; [reflexivity |].
  destruct ev; cbn in Hev; try discriminate; exact IH.
Qed.

(** The events of the loop body: the handler is attached, the runner
    runs, and what follows is about logging only and holds the closing
    and the removal of the handler, in this order. *)
Lemma download_request_events request ignore_exc w :
  let p := _process_request request w in
  let d := download_request request ignore_exc w in
  final d = final p /\
  res d = match res p with
          | Return _ => Return tt
          | Raise e => if swallowed ignore_exc e then Return tt else Raise e
          end /\
  exists tail,
    events d = AddHandler (log_path request) :: events p ++ tail /\
    Forall (fun ev => event_request ev = None) tail /\
    List.filter is_handler tail
    = [CloseHandler (log_path request); RemoveHandler (log_path request)] /\
    added tail = [].
Proof.
  intros p d. subst p d. unfold_loop_body. unfold swallowed.
  destruct (_process_request request w) as [[[] | e] w1 evs]; cbn.
  - split; [reflexivity |]. split; [reflexivity |]. eexists.
    split; [rewrite <- !app_assoc; reflexivity |]. cbn.
    split; [repeat constructor | split; reflexivity].
  - destruct (isinstance e AlreadyFinishedError) eqn:Hf,
      (isinstance e AlreadyProcessingError) eqn:Hp,
      (isinstance e TemporaryResourceError) eqn:Hn,
      (isinstance e ResourceError),
      (isinstance e BaseException),
      (matches e (or_empty ignore_exc)) eqn:Hm; cbn;
      rewrite ?Hf, ?Hp, ?Hn, ?Hm; unfold raise; cbn;
      (split; [reflexivity |]); (split; [reflexivity |]); eexists;
      (split; [rewrite <- ?app_assoc; reflexivity |]); cbn;
      (split; [repeat constructor | split; reflexivity]).
Qed.

Lemma no_handler_of_request {R} (evs : list (event R)) :
  Forall (fun ev => exists r, event_request ev = Some r) evs ->
  List.filter is_handler evs = [] /\ added evs = [].
Proof.
  induction 1 as [| ev evs [r Hev] _ [IH1 IH2]]; [split; reflexivity |].
  destruct ev; cbn in Hev; try discriminate; cbn; auto.
Qed.

Lemma process_request_no_handler request w :
  List.filter is_handler (events (_process_request request w)) = [] /\
  added (events (_process_request request w)) = [].
Proof.
  apply no_handler_of_request.
  eapply Forall_impl; [apply process_request_own_events |]. cbn. eauto.
Qed.

Lemma process_request_sessions request w :
  session_walk false (events (_process_request request w)) = Some false.
Proof.
  destruct (process_request_shapes request w) as [[e He] | (_ & s2 & Hev)].
  - now rewrite He.
  - now rewrite Hev.
Qed.

(** X14.  What the loop body of [download] does with the outcome of the
    runner: it leaves the world and the writes of the runner as they
    are; it raises exactly when the runner raised something that is
    neither one of the three skip signals nor matched by [ignore_exc],
    and then it raises that same exception; otherwise it returns. *)
Theorem loop_body_outcome request ignore_exc w :
  let p := _process_request request w in
  let d := download_request request ignore_exc w in
  final d = final p /\
  saved (events d) = saved (events p) /\
  (forall e, res d = Raise e <->
             res p = Raise e /\ swallowed ignore_exc e = false) /\
  (res d = Return tt <->
   res p = Return tt \/
   exists e, res p = Raise e /\ swallowed ignore_exc e = true).
Proof.
  intros p d.
  destruct (download_request_events request ignore_exc w) as (Hfin & Hres & _).
  fold p d in Hfin, Hres.
  split; [exact Hfin |].
  split; [apply download_request_saved |].
  rewrite Hres. destruct (res p) as [[] | e0].
  - split.
    + intros e. split; [discriminate | intros [? _]; discriminate].
    + split; [auto | reflexivity].
  - destruct (swallowed ignore_exc e0) eqn:Hs; split.
    + intros e. split; [discriminate |]. intros [[= <-] Hs']. congruence.
    + split; [eauto | reflexivity].
    + intros e. split; [intros [= <-]; auto | intros [[= <-] _]; reflexivity].
    + split; [discriminate |]. intros [? | (e & [= <-] & Hs')];
        [discriminate | congruence].
Qed.

(** X15.  With the default [ignore_exc], the only exceptions that get
    out of the loop body are the unexpected ones: what it raises was
    raised by the runner, is no [ResourceError] and none of the skip
    signals, and has been logged at level [ERROR] with its traceback
    before the handler was closed. *)
Theorem default_lets_only_unexpected_escape request w e :
  res (download_request request default_ignore_exc w) = Raise e ->
  let p := _process_request request w in
  let d := download_request request default_ignore_exc w in
  res p = Raise e /\
  isinstance e ResourceError = false /\
  isinstance e AlreadyFinishedError = false /\
  isinstance e AlreadyProcessingError = false /\
  events d
  = AddHandler (log_path request) :: events p ++
    [Log ERROR (exc_str e) true;
     CloseHandler (log_path request); RemoveHandler (log_path request)].
Proof.
  intros Hraise p d.
  destruct (download_request_events request default_ignore_exc w)
    as (_ & Hres & _).
  rewrite Hres in Hraise. fold p in Hraise.
  assert (Hp : res p = Raise e /\ swallowed default_ignore_exc e = false).
  { destruct (res p) as [[] | e0]; [discriminate |].
    destruct (swallowed default_ignore_exc e0) eqn:Hs0; [discriminate |].
    injection Hraise as <-. auto. }
  destruct Hp as [Hp Hs].
  unfold swallowed in Hs. cbn [default_ignore_exc or_empty matches] in Hs.
  apply orb_false_elim in Hs as [Hs Hr].
  apply orb_false_elim in Hs as [Hs Hn].
  apply orb_false_elim in Hs as [Hf Hpr].
  split; [exact Hp |]. do 3 (split; [assumption |]).
  subst d p.
  now rewrite (download_request_other request _ w e Hp Hf Hpr Hr).
Qed.

(** X16.  A request that is in progress or finished costs the driver one
    record at level [INFO] and nothing else: the loop body returns
    whatever [ignore_exc] is, also with [None], the work is not called,
    and the world is as before. *)
Theorem skips_are_logged_and_swallowed request ignore_exc w :
  let d := download_request request ignore_exc w in
  (truthy (status_get (_load_status w request) "processing") = true ->
   d = mkRun (Return tt) w
         (AddHandler (log_path request) :: looked request ++
          [CloseHandler (log_path request); RemoveHandler (log_path request);
           Log INFO "Already downloading" false])) /\
  (truthy (status_get (_load_status w request) "processing") = false ->
   truthy (status_get (_load_status w request) "finished") = true ->
   d = mkRun (Return tt) w
         (AddHandler (log_path request) :: looked request ++
          [CloseHandler (log_path request); RemoveHandler (log_path request);
           Log INFO "Already finished" false])).
Proof.
  intros d. subst d. split.
  - intros Hp. unfold_loop_body.
    rewrite (process_request_rejected request w _ (admission_processing _ _ Hp)).
    reflexivity.
  - intros Hp Hf. unfold_loop_body.
    rewrite (process_request_rejected request w _
               (admission_finished _ _ Hp Hf)).
    reflexivity.
Qed.

(** X17.  Whatever the runner does, and whether the loop body returns or
    raises, the log handler that was attached is closed and removed:
    these are the only three handler events of the loop body, in this
    order, for the log file of the request. *)
Theorem handler_always_released request ignore_exc w :
  List.filter is_handler (events (download_request request ignore_exc w))
  = [AddHandler (log_path request); CloseHandler (log_path request);
     RemoveHandler (log_path request)].
Proof.
  destruct (download_request_events request ignore_exc w)
    as (_ & _ & tail & Hev & _ & Htail & _).
  rewrite Hev. cbn [List.filter is_handler]. rewrite List.filter_app.
  destruct (process_request_no_handler request w) as [-> _].
  now rewrite Htail.
Qed.

(** ** The loop *)

Lemma download_request_sessions request ignore_exc w :
  session_walk false (events (download_request request ignore_exc w))
  = Some false.
Proof.
  destruct (download_request_events request ignore_exc w)
    as (_ & _ & tail & Hev & Htail & _).
  rewrite Hev. cbn [session_walk]. rewrite session_walk_app.
  rewrite process_request_sessions. now apply session_walk_neutral.
Qed.

Lemma download_request_added request ignore_exc w :
  added (events (download_request request ignore_exc w)) = [log_path request].
Proof.
  destruct (download_request_events request ignore_exc w)
    as (_ & _ & tail & Hev & _ & _ & Htail).
  rewrite Hev. change (AddHandler ?p :: ?l) with ([AddHandler (Request := Request) p] ++ l).
  rewrite !added_app, Htail.
  destruct (process_request_no_handler request w) as [_ ->]. reflexivity.
Qed.

(** One step of the loop. *)
Lemma download_requests_cons request rest ignore_exc w :
  let d := download_request request ignore_exc w in
  download_requests (request :: rest) ignore_exc w
  = match res d with
    | Return _ =>
        let r := download_requests rest ignore_exc (final d) in
        mkRun (res r) (final r) (events d ++ events r)
    | Raise e => mkRun (Raise e) (final d) (events d)
    end.
Proof.
  cbn [download_requests]. unfold bind.
  destruct (download_request request ignore_exc w) as [[[] | e] w1 evs1];
    cbn [res final events]; [| reflexivity].
  now destruct (download_requests rest ignore_exc w1).
Qed.

(** X18.  Session discipline.  In every run of [_process_request], and
    in every run of [download] over any requests, the status is loaded
    and saved only inside a session, no session is entered while another
    is open, every session is left again, and the work is called only
    while no session is open. *)
Theorem sessions_disciplined request w args ignore_exc :
  session_walk false (events (_process_request request w)) = Some false /\
  session_walk false (events (download args ignore_exc w)) = Some false.
Proof.
  split; [apply process_request_sessions |].
  unfold download. generalize (as_requests args) as requests.
  intros requests. revert w.
  induction requests as [| r rest IH]; intros w; [reflexivity |].
  rewrite download_requests_cons.
  pose proof (download_request_sessions r ignore_exc w) as Hone.
  destruct (res (download_request r ignore_exc w)); cbn [events];
    [| exact Hone].
  rewrite session_walk_app, Hone. apply IH.
Qed.

(** X19.  Running the loop over two lists in a row is running it over
    their concatenation: the second part runs from the world the first
    one left, and not at all when the first one raised. *)
Theorem download_requests_app requests1 requests2 ignore_exc w :
  download_requests (requests1 ++ requests2) ignore_exc w
  = (download_requests requests1 ignore_exc >>
     download_requests requests2 ignore_exc) w.
Proof.
  revert w. induction requests1 as [| r rest IH]; intros w.
  - cbn [app download_requests]. unfold bind, ret.
    now destruct (download_requests requests2 ignore_exc w).
  - cbn [app]. rewrite download_requests_cons. unfold bind at 1.
    rewrite download_requests_cons.
    destruct (download_request r ignore_exc w) as [[[] | e] w1 evs1];
      cbn [res final events]; [| reflexivity].
    rewrite IH. unfold bind.
    destruct (download_requests rest ignore_exc w1) as [[[] | e] w2 evs2];
      cbn [res final events]; [| reflexivity].
    destruct (download_requests requests2 ignore_exc w2) as [o w3 evs3].
    cbn [res final events]. now rewrite app_assoc.
Qed.

(** X20.  The requests are attempted in order and the loop ends at the
    first exception that gets out of the loop body: the log files
    attached during a run are those of a prefix of the requests; all of
    them when [download] returns, and a prefix that is not empty, ending
    with the request that raised, when it raises. *)
Theorem download_attempts_prefix args ignore_exc w :
  let r := download args ignore_exc w in
  exists n : nat,
    added (events r) = map log_path (take n (as_requests args)) /\
    (res r = Return tt -> n = length (as_requests args)) /\
    (forall e, res r = Raise e ->
               (0 < n <= length (as_requests args))%nat /\
               exists request,
                 as_requests args !! pred n = Some request /\
                 exists w0,
                   res (download_request request ignore_exc w0) = Raise e).
Proof.
  unfold download. generalize (as_requests args) as requests.
  intros requests. revert w.
  induction requests as [| r rest IH]; intros w; cbn zeta.
  - exists 0%nat. cbn. split; [reflexivity |]. split; [reflexivity |].
    discriminate.
  - rewrite download_requests_cons.
    pose proof (download_request_added r ignore_exc w) as Hone.
    destruct (res (download_request r ignore_exc w)) as [[] | e0] eqn:Hres;
      cbn [res events].
    + destruct (IH (final (download_request r ignore_exc w)))
        as (n & Hadd & Hret & Hraise).
      exists (S n). rewrite added_app, Hone, Hadd. cbn zeta in *.
      split; [reflexivity |]. split.
      * intros Hr. cbn [length]. f_equal. now apply Hret.
      * intros e He. destruct (Hraise e He) as (Hn & request & Hlook & Hw0).
        split; [cbn [length]; lia |].
        exists request. split; [| exact Hw0].
        destruct n as [| n]; [lia |]. exact Hlook.
    + exists 1%nat. rewrite Hone. split; [reflexivity |].
      split; [discriminate |]. intros e [= <-].
      split; [cbn [length]; lia |]. exists r. split; [reflexivity |]. eauto.
Qed.

(** X21.  With [ignore_exc=BaseException] nothing gets out of
    [download]: it returns for every list of requests, whatever the work
    raises, and every request has been attempted. *)
Theorem download_all_ignored args w :
  let r := download args (Some (OneClass BaseException)) w in
  res r = Return tt /\
  added (events r) = map log_path (as_requests args).
Proof.
  unfold download. generalize (as_requests args) as requests.
  intros requests. revert w.
  induction requests as [| r rest IH]; intros w; cbn zeta.
  - split; reflexivity.
  - rewrite download_requests_cons.
    destruct (download_request_events r (Some (OneClass BaseException)) w)
      as (_ & Hres & _).
    pose proof (download_request_added r (Some (OneClass BaseException)) w)
      as Hone.
    assert (Hret0 :
      res (download_request r (Some (OneClass BaseException)) w) = Return tt).
    { rewrite Hres. destruct (res (_process_request r w)) as [[] | e0];
        [reflexivity |].
      unfold swallowed. cbn [or_empty matches].
      now rewrite isinstance_BaseException, !orb_true_r. }
    rewrite Hret0. cbn [res events]. rewrite added_app, Hone.
    destruct (IH (final (download_request r (Some (OneClass BaseException)) w)))
      as [Hret Hadd].
    cbn zeta in *. rewrite Hret, Hadd. split; reflexivity.
Qed.

End Coverage.

(** ** Runs of the concrete downloader *)

Section CoverageRuns.
Import Demo.

Lemma init_without_deadline_witness :
  TemporaryResourceError_init TemporaryResourceError "busy" VNone fresh
  = mkRun (Request := string)
      (Return (mkExc TemporaryResourceError "busy"
                 (Some (mkDatetime 250000 (Some 0))))) fresh [] /\
  PartiallyCompleted_init PartiallyCompleted "busy" (VInt 0) fresh
  = mkRun (Request := string)
      (Return (mkExc PartiallyCompleted "busy"
                 (Some (mkDatetime 250000 (Some 0))))) fresh [].
Proof.
  split.
  - destruct (init_without_deadline (Request := string) TemporaryResourceError
                "busy" VNone fresh) as [Hinit _]; [reflexivity |].
    exact Hinit.
  - destruct (init_without_deadline (Request := string) PartiallyCompleted
                "busy" (VInt 0) fresh) as [_ Hinit]; [reflexivity |].
    exact Hinit.
Defined.

Lemma init_instance_has_timezone_witness :
  exists d off,
    exc_waiting_until (mkExc PartiallyCompleted "half done" (Some deadline))
    = Some d /\ tzinfo d = Some off.
Proof.
  apply (init_instance_has_timezone (Request := string) PartiallyCompleted
           "half done" (VDatetime deadline) fresh
           (mkExc PartiallyCompleted "half done" (Some deadline))).
  right. vm_compute. reflexivity.
Defined.

Lemma init_rejects_other_values_witness :
  exists what,
    TemporaryResourceError_init TemporaryResourceError "busy"
      (VStr "tomorrow") fresh
    = mkRun (Request := string) (Raise (mkExc AttributeError what None))
        fresh [] /\
    PartiallyCompleted_init TemporaryResourceError "busy"
      (VStr "tomorrow") fresh
    = mkRun (Request := string) (Raise (mkExc AttributeError what None))
        fresh [].
Proof.
  apply (init_rejects_other_values (Request := string) TemporaryResourceError
           "busy" (VStr "tomorrow") fresh).
  - reflexivity.
  - discriminate.
Defined.

Lemma admission_without_deadline_witness :
  res (admission "ok" fresh) = Return tt /\
  Exec "ok" ∈ events (_process_request "ok" fresh).
Proof.
  destruct (admission_without_deadline (Args := list string) "ok" fresh)
    as (Hadm & Hexec & _);
    [vm_compute; reflexivity | vm_compute; reflexivity
    | vm_compute; reflexivity |].
  auto.
Defined.

Lemma admission_bad_deadline_witness :
  let w := with_status "ok" {["waiting_until" := VDatetime naive_deadline]}
             fresh in
  exists msg,
    _process_request "ok" w
    = mkRun (Raise (mkExc TypeError msg None)) w
        [SessionEnter "ok"; Load "ok"; SessionExit "ok"].
Proof.
  intros w.
  apply (admission_bad_deadline (Args := list string) "ok" w
           (VDatetime naive_deadline)).
  - vm_compute. reflexivity.
  - vm_compute. reflexivity.
  - vm_compute. reflexivity.
  - intros d [= <-]. reflexivity.
Defined.

(** The deadline 02:00:00, seen at 00:00:00.25 and at 02:00:00. *)
Lemma grace_window_witness :
  let w := with_status "ok" {["waiting_until" := VDatetime deadline]} fresh in
  let w' := mkWorld (db w) 7200000000 in
  (exists msg,
     res (admission "ok" w)
     = Raise (mkExc TemporaryResourceError msg (Some deadline))) /\
  res (admission "ok" w') = Return tt.
Proof.
  intros w w'. split.
  - destruct (grace_window (Args := list string) "ok" w deadline 0)
      as (_ & Hlate & _);
      [vm_compute; reflexivity | vm_compute; reflexivity
      | vm_compute; reflexivity | reflexivity |].
    apply Hlate. vm_compute. reflexivity.
  - destruct (grace_window (Args := list string) "ok" w' deadline 0)
      as (Hdue & _ & _);
      [vm_compute; reflexivity | vm_compute; reflexivity
      | vm_compute; reflexivity | reflexivity |].
    apply Hdue. vm_compute. discriminate.
Defined.

Lemma success_marks_finished_witness :
  res (_process_request "ok" fresh) = Return tt /\
  exists st,
    _load_status (final (_process_request "ok" fresh)) "ok" = st /\
    st !! "finished" = Some (VBool true) /\
    st !! "processing" = Some (VBool false) /\
    st !! "failed" = Some (VBool false).
Proof.
  destruct (success_marks_finished (Args := list string) "ok" fresh
              (final (admission "ok" fresh)))
    as (Hres & st & _ & _ & _ & Hfin & Hproc & _ & _ & Hstore);
    [vm_compute; reflexivity | vm_compute; reflexivity |].
  destruct Hstore as [Hfail Hload]; [apply demo_store_law | reflexivity |].
  split; [exact Hres |]. exists st. auto.
Defined.

(** A record with a key of the downloader's own. *)
Lemma other_keys_kept_witness :
  let w := with_status "bug" {["mirror" := VInt 2]} fresh in
  exists s1 s2,
    saved (events (_process_request "bug" w)) = [s1; s2] /\
    s1 !! "mirror" = Some (VInt 2) /\
    s2 !! "mirror" = Some (VInt 2).
Proof.
  intros w.
  destruct (other_keys_kept (Args := list string) "bug" w "mirror")
    as (s1 & s2 & Hsaved & H1 & H2);
    [discriminate | discriminate | discriminate | discriminate
    | vm_compute; reflexivity |].
  exists s1, s2. split; [exact Hsaved |]. split.
  - rewrite H1. vm_compute. reflexivity.
  - rewrite H2. vm_compute. reflexivity.
Defined.

Lemma no_retry_after_finish_witness :
  let w' := final (_process_request "gone" fresh) in
  _process_request "gone" w'
  = mkRun (Raise (mkExc AlreadyFinishedError "" None)) w'
      [SessionEnter "gone"; Load "gone"; SessionExit "gone"].
Proof.
  intros w'.
  apply (no_retry_after_finish (Args := list string) "gone" fresh
           (Raise (mkExc ResourceError "404" None))
           (final (admission "gone" fresh)) w').
  - apply demo_store_law.
  - vm_compute. reflexivity.
  - vm_compute. reflexivity.
  - right. eexists. split; [reflexivity |]. split; vm_compute; reflexivity.
  - reflexivity.
Defined.

(** The store as a failed run left it, five seconds into the day. *)
Lemma retry_after_unexpected_failure_witness :
  let w' := mkWorld (db (final (_process_request "bug" fresh))) 5000000 in
  _load_status w' "bug" !! "failed" = Some (VBool true) /\
  res (admission "bug" w') = Return tt /\
  Exec "bug" ∈ events (_process_request "bug" w').
Proof.
  intros w'.
  destruct (retry_after_unexpected_failure (Args := list string) "bug" fresh
              (mkExc ValueError "bad input" None)
              (final (admission "bug" fresh)) w')
    as (Hfailed & Hadm & Hexec & _).
  - apply demo_store_law.
  - vm_compute. reflexivity.
  - vm_compute. reflexivity.
  - reflexivity.
  - vm_compute. reflexivity.
  - vm_compute. reflexivity.
  - reflexivity.
  - vm_compute. discriminate.
  - auto.
Defined.

(** The store as a partial run left it, seen at once and at 02:00:00. *)
Lemma deadline_enforced_after_signal_witness :
  let w1 := final (_process_request "partial" fresh) in
  let w2 := mkWorld (db w1) 7200000000 in
  (exists msg,
     res (_process_request "partial" w1)
     = Raise (mkExc TemporaryResourceError msg (Some deadline))) /\
  Exec "partial" ∈ events (_process_request "partial" w2).
Proof.
  intros w1 w2. split.
  - destruct (deadline_enforced_after_signal (Args := list string) "partial"
                fresh (mkExc PartiallyCompleted "half done" (Some deadline))
                deadline 0 (final (admission "partial" fresh)) w1)
      as [Hlate _];
      [ apply demo_store_law | vm_compute; reflexivity
      | vm_compute; reflexivity | reflexivity
      | left; vm_compute; reflexivity | reflexivity | reflexivity
      | reflexivity | ].
    destruct Hlate as [msg Hrun]; [vm_compute; reflexivity |].
    exists msg. now rewrite Hrun.
  - destruct (deadline_enforced_after_signal (Args := list string) "partial"
                fresh (mkExc PartiallyCompleted "half done" (Some deadline))
                deadline 0 (final (admission "partial" fresh)) w2)
      as [_ Hdue];
      [ apply demo_store_law | vm_compute; reflexivity
      | vm_compute; reflexivity | reflexivity
      | left; vm_compute; reflexivity | reflexivity | reflexivity
      | reflexivity | ].
    apply Hdue. vm_compute. discriminate.
Defined.

Lemma loop_body_outcome_witness :
  res (download_request "bug" None fresh)
  = Raise (mkExc ValueError "bad input" None) /\
  res (download_request "skip" None fresh) = Return tt.
Proof.
  split.
  - destruct (loop_body_outcome (Args := list string) "bug" None fresh)
      as (_ & _ & Hraise & _).
    apply Hraise. split; vm_compute; reflexivity.
  - destruct (loop_body_outcome (Args := list string) "skip" None fresh)
      as (_ & _ & _ & Hret).
    apply Hret. right. exists (mkExc AlreadyFinishedError "" None).
    split; vm_compute; reflexivity.
Defined.

Lemma default_lets_only_unexpected_escape_witness :
  let e := mkExc ValueError "bad input" None in
  res (_process_request "bug" fresh) = Raise e /\
  isinstance e ResourceError = false.
Proof.
  intros e.
  destruct (default_lets_only_unexpected_escape (Args := list string) "bug"
              fresh e) as (Hp & Hr & _);
    [vm_compute; reflexivity |].
  auto.
Defined.

Lemma skips_are_logged_and_swallowed_witness :
  let w1 := with_status "ok" {["processing" := VBool true]} fresh in
  let w2 := with_status "ok" {["finished" := VBool true]} fresh in
  res (download_request "ok" None w1) = Return tt /\
  List.filter is_log (events (download_request "ok" None w1))
  = [Log INFO "Already downloading" false] /\
  res (download_request "ok" None w2) = Return tt /\
  List.filter is_log (events (download_request "ok" None w2))
  = [Log INFO "Already finished" false].
Proof.
  intros w1 w2.
  destruct (skips_are_logged_and_swallowed (Args := list string) "ok" None w1)
    as [H1 _].
  destruct (skips_are_logged_and_swallowed (Args := list string) "ok" None w2)
    as [_ H2].
  rewrite H1 by (vm_compute; reflexivity).
  rewrite H2 by (vm_compute; reflexivity).
  repeat split.
Defined.

(** Three requests, of which the second raises a [ValueError]. *)
Lemma download_attempts_prefix_witness :
  exists n : nat,
    added (events (download ["ok"; "bug"; "gone"] None fresh))
    = map log_path (take n ["ok"; "bug"; "gone"]) /\
    (0 < n <= 3)%nat /\
    ["ok"; "bug"; "gone"] !! pred n = Some "bug".
Proof.
  destruct (download_attempts_prefix ["ok"; "bug"; "gone"] None fresh)
    as (n & Hadd & _ & Hraise).
  destruct (Hraise (mkExc ValueError "bad input" None))
    as (Hn & request & Hlook & _); [vm_compute; reflexivity |].
  exists n. split; [exact Hadd |]. split; [exact Hn |].
  cbn in Hlook, Hn.
  destruct n as [| [| [| n]]]; cbn in Hadd, Hlook |- *;
    try lia; try (vm_compute in Hadd; discriminate).
  reflexivity.
Defined.

End CoverageRuns.
